(** * app/auth_utils.py: bearer-token extraction, token verification and
      scope check, embedded in Rocq.

    The module under study is a Flask blueprint.  Three of its functions carry
    the logic: [get_token_auth_header], the decorator [requires_auth_token]
    and [requires_scope].  They are pure string and dictionary code wrapped
    around calls into libraries (urllib, json, python-jose, flask).  The
    embedding keeps that shape: the string code is ordinary functions, the
    library calls are the nodes of a program tree whose answers are supplied
    by an arbitrary handler, and Python exceptions are values of [result]. *)

From Stdlib Require Import ZArith NArith Ascii String List Lia.
From stdpp Require Import base gmap strings list fin_maps.

Local Open Scope Z_scope.

(* ===================================================================== *)
(** ** Python text strings                                                *)
(* ===================================================================== *)

(** A header value reaches the application as a text string decoded from
    latin-1, so each character is a code point below 256: exactly an
    [ascii].  [str.split()] and [str.lower()] are the builtins of CPython
    restricted to that range. *)
Module PyStr.

(** [str.isspace] on one code point below 256: TAB, LF, VT, FF, CR, the
    four separators FS, GS, RS, US, the space, NEL and the no-break
    space. *)
Definition isspace (c : ascii) : bool :=
  let n := N_of_ascii c in
  ((9 <=? n) && (n <=? 13) || (28 <=? n) && (n <=? 32)
   || (n =? 133) || (n =? 160))%N.

(** [str.lower] on one code point below 256: A-Z and the accented
    capitals of latin-1 (all of 0xC0-0xDE but the multiplication sign)
    move up by 32. *)
Definition lower_char (c : ascii) : ascii :=
  let n := N_of_ascii c in
  if ((65 <=? n) && (n <=? 90) || (192 <=? n) && (n <=? 214)
      || (216 <=? n) && (n <=? 222))%N
  then ascii_of_N (n + 32) else c.

Fixpoint lower (s : string) : string :=
  match s with
  | EmptyString => EmptyString
  | String c s' => String (lower_char c) (lower s')
  end.

(** Python truthiness of a string. *)
Definition truthy (s : string) : bool :=
  match s with EmptyString => false | _ => true end.

Definition cons_word (w : string) (ws : list string) : list string :=
  match w with EmptyString => ws | _ => w :: ws end.

(** [split_aux s] is the pair of the run of non-space characters [s]
    starts with (empty when [s] starts with a space) and the words that
    follow it. *)
Fixpoint split_aux (s : string) : string * list string :=
  match s with
  | EmptyString => (EmptyString, [])
  | String c s' =>
      let '(w, ws) := split_aux s' in
      if isspace c then (EmptyString, cons_word w ws)
      else (String c w, ws)
  end.

(** [s.split()]: the maximal runs of non-space characters, in order. *)
Definition split (s : string) : list string :=
  let '(w, ws) := split_aux s in cons_word w ws.

(** A string none of whose characters is a space. *)
Fixpoint nospace (s : string) : bool :=
  match s with
  | EmptyString => true
  | String c s' => negb (isspace c) && nospace s'
  end.

(** A string all of whose characters are spaces. *)
Fixpoint allspace (s : string) : bool :=
  match s with
  | EmptyString => true
  | String c s' => isspace c && allspace s'
  end.

(** What may follow a word: nothing, or a space and anything. *)
Definition word_end (r : string) : bool :=
  match r with
  | EmptyString => true
  | String c _ => isspace c
  end.

(** [" ".join(ws)]. *)
Fixpoint join_space (ws : list string) : string :=
  match ws with
  | [] => EmptyString
  | [w] => w
  | w :: ws' => w +:+ String " " (join_space ws')
  end.

(** The reading of "case-insensitively equal" used in the statements
    below: two characters agree when they are equal or are the two cases
    of one of the letters a-z. *)
Definition eq_char_ignore_case (a b : ascii) : bool :=
  let m := N_of_ascii a in
  let n := N_of_ascii b in
  ((m =? n)
   || (65 <=? m) && (m <=? 90) && (n =? m + 32)
   || (65 <=? n) && (n <=? 90) && (m =? n + 32))%N.

Fixpoint eq_ignore_case (s t : string) : bool :=
  match s, t with
  | EmptyString, EmptyString => true
  | String a s', String b t' => eq_char_ignore_case a b && eq_ignore_case s' t'
  | _, _ => false
  end.

End PyStr.

(* ===================================================================== *)
(** ** Python text of any code point                                      *)
(* ===================================================================== *)

(** The strings inside a decoded JSON document, and the strings the scope
    check compares and prints, are not limited to latin-1: a [str] is a
    sequence of code points.  A string literal of this file stands for the
    code points of its characters. *)
Definition ustring : Type := list N.

Fixpoint of_latin1 (s : string) : ustring :=
  match s with
  | EmptyString => []
  | String c s' => N_of_ascii c :: of_latin1 s'
  end.
Coercion of_latin1 : string >-> ustring.

Global Instance ustring_eq_dec : EqDecision ustring.
Proof. unfold ustring. apply _. Defined.

(** [str.isspace] on one code point, as [str.split()] uses it: the
    whitespace of latin-1 (TAB to CR, FS to US, the space, NEL, the
    no-break space) and, beyond it, U+1680, U+2000 to U+200A, U+2028,
    U+2029, U+202F, U+205F and U+3000. *)
Definition uisspace (n : N) : bool :=
  ((9 <=? n) && (n <=? 13) || (28 <=? n) && (n <=? 32)
   || (n =? 133) || (n =? 160) || (n =? 5760)
   || (8192 <=? n) && (n <=? 8202)
   || (n =? 8232) || (n =? 8233) || (n =? 8239) || (n =? 8287)
   || (n =? 12288))%N.

(** Python truthiness of a string. *)
Definition utruthy (s : ustring) : bool :=
  match s with [] => false | _ => true end.

Definition ucons_word (w : ustring) (ws : list ustring) : list ustring :=
  match w with [] => ws | _ => w :: ws end.

(** As [PyStr.split_aux]: the run of non-space code points [s] starts with
    and the words that follow it. *)
Fixpoint usplit_aux (s : ustring) : ustring * list ustring :=
  match s with
  | [] => ([], [])
  | c :: s' =>
      let '(w, ws) := usplit_aux s' in
      if uisspace c then ([], ucons_word w ws)
      else (c :: w, ws)
  end.

(** [s.split()] on a string of any code points. *)
Definition usplit (s : ustring) : list ustring :=
  let '(w, ws) := usplit_aux s in ucons_word w ws.


(* ===================================================================== *)
(** ** Values, exceptions and results                                     *)
(* ===================================================================== *)

(** A decoded JSON value, as [json.loads] and python-jose hand it over.
    A string is a string of any code points.  Numbers are integers here; a
    float claim plays no part in this module. *)
#[warnings="-register-all"] Inductive json : Type :=
| JNull
| JBool (b : bool)
| JNum (n : Z)
| JStr (s : ustring)
| JArr (l : list json)
| JObj (m : list (string * json)).

(** Python truthiness, as [if x:] tests it. *)
Definition json_truthy (v : json) : bool :=
  match v with
  | JNull => false
  | JBool b => b
  | JNum n => negb (n =? 0)
  | JStr s => utruthy s
  | JArr l => match l with [] => false | _ => true end
  | JObj m => match m with [] => false | _ => true end
  end.

(** The exceptions that travel through the module.  [AuthError] is the
    class the module defines, carrying the [error] dictionary and the
    [status_code]; the next three are python-jose's ([ExpiredSignatureError]
    and [JWTClaimsError] are subclasses of [JWTError]); [OtherError] stands
    for any further subclass of [Exception] a library may raise (URLError,
    ValueError, ...); [KeyboardInterrupt] derives from [BaseException]
    only. *)
Inductive exn : Type :=
| AuthError (error : gmap string string) (status_code : Z)
| JWTError
| ExpiredSignatureError
| JWTClaimsError
| IndexError
| KeyError (key : string)
| AttributeError
| OtherError (name : string)
| KeyboardInterrupt.

(** [isinstance(e, Exception)]. *)
Definition is_Exception (e : exn) : bool :=
  match e with KeyboardInterrupt => false | _ => true end.

Definition is_AuthError (e : exn) : bool :=
  match e with AuthError _ _ => true | _ => false end.

Inductive result (A : Type) : Type :=
| Ok (a : A)
| Raise (e : exn).
Arguments Ok {A} a.
Arguments Raise {A} e.

(** Sequencing: an exception raised by the first statement skips the
    rest. *)
Global Instance result_bind : MBind result := λ A B f r,
  match r with
  | Ok a => f a
  | Raise e => Raise e
  end.

(** [l[i]] on a list. *)
Definition list_getitem {A : Type} (l : list A) (i : nat) : result A :=
  match l !! i with
  | Some x => Ok x
  | None => Raise IndexError
  end.

(** [d[k]] on a dictionary with string keys. *)
Definition dict_getitem {V : Type} (d : gmap string V) (k : string) : result V :=
  match d !! k with
  | Some v => Ok v
  | None => Raise (KeyError k)
  end.

(** [if d:] on a dictionary. *)
Definition dict_truthy (d : gmap string string) : bool := bool_decide (d ≠ ∅).

(** [not auth] where [auth] is [None] or a string. *)
Definition not_auth (auth : option string) : bool :=
  match auth with
  | None => true
  | Some s => negb (PyStr.truthy s)
  end.

(** [v.split()]: only a string has the method. *)
Definition json_split (v : json) : result (list ustring) :=
  match v with
  | JStr s => Ok (usplit s)
  | _ => Raise AttributeError
  end.

(** The dictionary every [AuthError] of the module is built from. *)
Definition error_dict (code description : string) : gmap string string :=
  {[ "code" := code; "description" := description ]}.

(* ===================================================================== *)
(** ** get_token_auth_header                                              *)
(* ===================================================================== *)

(** [auth] is the value of [request.headers.get("Authorization", None)]. *)
Definition get_token_auth_header (auth : option string) : result string :=
  if not_auth auth then
    Raise (AuthError (error_dict "authorization_header_missing"
                                 "Authorization header is expected") 401)
  else
    let parts := PyStr.split (default "" auth) in
    scheme ← list_getitem parts 0;
    if negb (String.eqb (PyStr.lower scheme) "bearer") then
      Raise (AuthError (error_dict "invalid_header"
                          ("Authorization header must start with" +:+ " Bearer")) 401)
    else if Nat.eqb (length parts) 1 then
      Raise (AuthError (error_dict "invalid_header" "Token not found") 401)
    else if Nat.ltb 2 (length parts) then
      Raise (AuthError (error_dict "invalid_header"
                          ("Authorization header must be" +:+ " Bearer token")) 401)
    else
      token ← list_getitem parts 1;
      Ok token.


(* ===================================================================== *)
(** ** Library calls and program trees                                    *)
(* ===================================================================== *)

(** The calls the module makes out of itself.  [urlopen_read url] is
    [urlopen(url)] followed by [.read()]; [set_current_user] is the
    assignment to [_request_ctx_stack.top.current_user]; [view] is the call
    [f( *args, **kwargs)] of the wrapped view function. *)
Inductive call : Type :=
| urlopen_read (url : string)
| json_loads (body : string)
| jwt_get_unverified_header (token : string)
| jwt_decode (token : string) (key : gmap string string)
             (algorithms : list string) (audience issuer : string)
| jwt_get_unverified_claims (token : string)
| set_current_user (payload : gmap string json)
| print (s : ustring)
| view.

Definition is_jwt_decode (c : call) : bool :=
  match c with jwt_decode _ _ _ _ _ => true | _ => false end.

(** The two calls of the scope check. *)
Definition claims_or_print (c : call) : Prop :=
  match c with
  | jwt_get_unverified_claims _ | print _ => True
  | _ => False
  end.

Section AuthUtils.

(** What a view function returns. *)
Variable Response : Type.

(** The two settings imported from [app.serve]. *)
Variable AUTH0_DOMAIN : string.
Variable API_AUDIENCE : string.

(** What each call returns when it does not raise.  The key set document
    is an object whose members are lists of keys, a key being an object
    with string members; a token header likewise. *)
Definition ret (c : call) : Type :=
  match c with
  | urlopen_read _ => string
  | json_loads _ => gmap string (list (gmap string string))
  | jwt_get_unverified_header _ => gmap string string
  | jwt_decode _ _ _ _ _ => gmap string json
  | jwt_get_unverified_claims _ => gmap string json
  | set_current_user _ => unit
  | print _ => unit
  | view => Response
  end.

(** A program either finishes (returns or raises) or makes a call and
    goes on from its outcome. *)
Inductive prog (A : Type) : Type :=
| Ret (r : result A)
| Call (c : call) (k : result (ret c) -> prog A).
Arguments Ret {A} r.
Arguments Call {A} c k.

Fixpoint bind {A B : Type} (p : prog A) (f : A -> prog B) : prog B :=
  match p with
  | Ret (Ok a) => f a
  | Ret (Raise e) => Ret (Raise e)
  | Call c k => Call c (fun r => bind (k r) f)
  end.

(** [try: p except ...: h e]. *)
Fixpoint try_except {A : Type} (p : prog A) (h : exn -> prog A) : prog A :=
  match p with
  | Ret (Ok a) => Ret (Ok a)
  | Ret (Raise e) => h e
  | Call c k => Call c (fun r => try_except (k r) h)
  end.

Definition perform (c : call) : prog (ret c) := Call c (fun r => Ret r).
Definition lift {A : Type} (r : result A) : prog A := Ret r.
Definition raise {A : Type} (e : exn) : prog A := Ret (Raise e).
Definition ret_ok {A : Type} (a : A) : prog A := Ret (Ok a).

(** The libraries and the surroundings: an outcome for every call. *)
Definition handler : Type := forall c : call, result (ret c).

(** Running a program against a handler: the calls made, in order, and
    the outcome. *)
Fixpoint run {A : Type} (h : handler) (p : prog A) : list call * result A :=
  match p with
  | Ret r => ([], r)
  | Call c k => let '(t, r) := run h (k (h c)) in (c :: t, r)
  end.

Global Instance prog_bind : MBind prog := λ A B f p, bind p f.

(* =================================================================== *)
(** ** requires_auth_token                                              *)
(* =================================================================== *)

Definition ALGORITHMS : list string := ["RS256"].

(** The body of the [for key in jwks["keys"]] loop, threaded over the
    keys: [rsa_key] is the dictionary the loop has assigned so far.  There
    is no [break]: a later key with the same identifier overwrites. *)
Fixpoint select_key (keys : list (gmap string string))
         (unverified_header rsa_key : gmap string string)
  : result (gmap string string) :=
  match keys with
  | [] => Ok rsa_key
  | key :: keys' =>
      kid ← dict_getitem key "kid";
      hkid ← dict_getitem unverified_header "kid";
      if String.eqb kid hkid then
        kty ← dict_getitem key "kty";
        kid' ← dict_getitem key "kid";
        use ← dict_getitem key "use";
        n ← dict_getitem key "n";
        e ← dict_getitem key "e";
        select_key keys' unverified_header
          {[ "kty" := kty; "kid" := kid'; "use" := use; "n" := n; "e" := e ]}
      else select_key keys' unverified_header rsa_key
  end.

(** The [except] clauses around [jwt.decode], in their order: the
    exception that leaves the [try] statement when [jwt.decode] raised
    [e].  An exception no clause catches leaves unchanged. *)
Definition decode_except (e : exn) : exn :=
  match e with
  | ExpiredSignatureError =>
      AuthError (error_dict "token_expired" "token is expired") 401
  | JWTClaimsError =>
      AuthError (error_dict "invalid_claims"
                   ("incorrect claims," +:+ "please check the audience and issuer")) 401
  | _ =>
      if is_Exception e then
        AuthError (error_dict "invalid_header"
                     ("Unable to parse authentication" +:+ " token.")) 401
      else e
  end.

(** [decorated], the function [requires_auth_token(f)] returns; [auth] is
    the Authorization header of the request being served. *)
Definition requires_auth_token (auth : option string) : prog Response :=
  token ← lift (get_token_auth_header auth);
  body ← perform (urlopen_read
                    ("https://" +:+ AUTH0_DOMAIN +:+ "/.well-known/jwks.json"));
  jwks ← perform (json_loads body);
  unverified_header ← perform (jwt_get_unverified_header token);
  keys ← lift (dict_getitem jwks "keys");
  rsa_key ← lift (select_key keys unverified_header ∅);
  if dict_truthy rsa_key then
    payload ← try_except
                 (perform (jwt_decode token rsa_key ALGORITHMS API_AUDIENCE
                                      (AUTH0_DOMAIN +:+ "/")))
                 (fun e => raise (decode_except e));
    perform (set_current_user payload);;
    perform view
  else
    raise (AuthError (error_dict "invalid_header"
                                 "Unable to find appropriate key") 401).

(** The URL the key set is fetched from. *)
Definition jwks_url : string :=
  "https://" +:+ AUTH0_DOMAIN +:+ "/.well-known/jwks.json".

(** The call that verifies [token] against [rsa_key]. *)
Definition decode_call (token : string) (rsa_key : gmap string string) : call :=
  jwt_decode token rsa_key ALGORITHMS API_AUDIENCE (AUTH0_DOMAIN +:+ "/").

(** The request reaches [jwt.decode]: the header yields [token], the key
    set is fetched and parsed, the header of the token is decoded, and the
    loop leaves a non-empty [rsa_key]. *)
Definition reaches_verification (h : handler) (auth : option string)
           (token : string) (rsa_key : gmap string string) : Prop :=
  exists (body : string) (jwks : gmap string (list (gmap string string)))
         (unverified_header : gmap string string)
         (keys : list (gmap string string)),
    get_token_auth_header auth = Ok token /\
    h (urlopen_read jwks_url) = Ok body /\
    h (json_loads body) = Ok jwks /\
    h (jwt_get_unverified_header token) = Ok unverified_header /\
    jwks !! "keys" = Some keys /\
    select_key keys unverified_header ∅ = Ok rsa_key /\
    rsa_key <> ∅.

(** A published key that has the five members the loop copies. *)
Definition jwk_complete (key : gmap string string) : Prop :=
  is_Some (key !! "kty") /\ is_Some (key !! "kid") /\ is_Some (key !! "use") /\
  is_Some (key !! "n") /\ is_Some (key !! "e").

(* =================================================================== *)
(** ** requires_scope                                                   *)
(* =================================================================== *)

(** The [for token_scope in token_scopes] loop and the [return False]
    that follows it. *)
Fixpoint scope_loop (token_scopes : list ustring) (required_scope : ustring)
  : prog bool :=
  match token_scopes with
  | [] => ret_ok false
  | token_scope :: rest =>
      perform (print token_scope);;
      if bool_decide (token_scope = required_scope) then ret_ok true
      else scope_loop rest required_scope
  end.

Definition requires_scope (auth : option string) (required_scope : ustring)
  : prog bool :=
  token ← lift (get_token_auth_header auth);
  unverified_claims ← perform (jwt_get_unverified_claims token);
  if from_option json_truthy false (unverified_claims !! "scope") then
    scope ← lift (dict_getitem unverified_claims "scope");
    token_scopes ← lift (json_split scope);
    scope_loop token_scopes required_scope
  else ret_ok false.

(* =================================================================== *)
(** ** Sample surroundings                                              *)
(* =================================================================== *)

(** A key as the provider publishes it. *)
Definition sample_jwk : gmap string string :=
  {[ "alg" := "RS256"; "kty" := "RSA"; "use" := "sig"; "kid" := "k1";
     "n" := "sXchDaQebHnPiGvyDOAT4saGEUetSyo9MKLOoWFsueri23bOdgWp4Dy1Wl";
     "e" := "AQAB" ]}.

(** What the loop makes of [sample_jwk]. *)
Definition sample_rsa_key : gmap string string :=
  {[ "kty" := "RSA"; "kid" := "k1"; "use" := "sig";
     "n" := "sXchDaQebHnPiGvyDOAT4saGEUetSyo9MKLOoWFsueri23bOdgWp4Dy1Wl";
     "e" := "AQAB" ]}.

(** A second key published under the same identifier, and a key published
    under another one. *)
Definition sample_jwk_rotated : gmap string string :=
  {[ "alg" := "RS256"; "kty" := "RSA"; "use" := "sig"; "kid" := "k1";
     "n" := "0vx7agoebGcQSuuPiLJXZptN9nndrQmbXEps2aiAFbWhM78LhWx4cbbfAAt";
     "e" := "AQAB" ]}.

Definition sample_jwk_other : gmap string string :=
  {[ "kty" := "RSA"; "use" := "sig"; "kid" := "k2"; "n" := "AQAB"; "e" := "AQAB" ]}.

(** A token header naming [sample_jwk], and an algorithm of its own. *)
Definition sample_header : gmap string string :=
  {[ "alg" := "HS256"; "typ" := "JWT"; "kid" := "k1" ]}.

(** Surroundings that publish [sample_jwk] alone, answer the three
    python-jose calls as given, and whose view returns [resp]. *)
Definition sample_handler (resp : Response)
           (hdr : result (gmap string string))
           (dec claims : result (gmap string json)) : handler :=
  fun c =>
    match c return result (ret c) with
    | urlopen_read _ => Ok "{...}"
    | json_loads _ => Ok {[ "keys" := [sample_jwk] ]}
    | jwt_get_unverified_header _ => hdr
    | jwt_decode _ _ _ _ _ => dec
    | jwt_get_unverified_claims _ => claims
    | set_current_user _ => Ok tt
    | print _ => Ok tt
    | view => Ok resp
    end.

End AuthUtils.

Arguments Ret {Response A} r.
Arguments Call {Response A} c k.
Arguments run {Response A} h p.
Arguments bind {Response A B} p f.
Arguments try_except {Response A} p h.
Arguments perform {Response} c.
Arguments scope_loop {Response} token_scopes required_scope.
Arguments requires_auth_token {Response} AUTH0_DOMAIN API_AUDIENCE auth.
Arguments requires_scope {Response} auth required_scope.
Arguments sample_handler {Response} resp hdr dec claims.
Arguments reaches_verification {Response} AUTH0_DOMAIN h auth token rsa_key.

(** Equations between closed terms are settled by evaluation; the sample
    surroundings take a request bearing a token whose header names the
    published key up to [jwt.decode]. *)
Ltac by_vm :=
  lazymatch goal with
  | |- _ = ?rhs => vm_cast_no_check (eq_refl rhs)
  end.

Ltac sample_reaches :=
  exists "{...}", {[ "keys" := [sample_jwk] ]}, sample_header, [sample_jwk];
  repeat apply conj; [by_vm .. | done].

(* ===================================================================== *)
(** ** The session routes                                                 *)
(* ===================================================================== *)

(** The rest of the module works on the Flask session: the decorator
    [requires_auth], the error handler [handle_auth_error] and the routes
    [callback_handling], [login] and [logout].  The session is a dictionary
    kept from one request to the next; the entries this module writes are
    dictionaries of JSON values. *)

(** The calls these functions make out of the module.  [auth0_get_json path]
    is [auth0.get(path)] followed by [.json()]; [call_func] is the call
    [func( *args, **kwargs)] of the function [requires_auth] wraps;
    [add_user] is imported from [app.users.utils]. *)
Inductive wcall : Type :=
| auth0_authorize_access_token
| auth0_get_json (path : string)
| auth0_authorize_redirect (redirect_uri audience : string)
| add_user (name picture sub : json)
| url_for (endpoint : string) (_external : bool)
| urlencode (params : list (string * string))
| call_func.

Section SessionRoutes.

(** What a function of another module returns as a response. *)
Variable R : Type.

(** The setting imported from [app.serve]. *)
Variable CLIENT_ID : string.

(** A response: built by [jsonify] (with the status Flask gives it, 200,
    until it is assigned), built by [redirect], or handed over by a function
    of another module. *)
Inductive response : Type :=
| JsonResponse (body : gmap string json) (status_code : Z)
| Redirect (location : string)
| External (r : R).

(** [jsonify] of keyword arguments, or of one dictionary. *)
Definition jsonify (body : gmap string json) : response := JsonResponse body 200.

(** [handle_auth_error(ex)] for [ex = AuthError(error, status_code)]. *)
Definition handle_auth_error (error : gmap string string) (status_code : Z)
  : response :=
  match jsonify ((fun s : string => JStr s) <$> error) with
  | JsonResponse body _ => JsonResponse body status_code
  | r => r
  end.

Definition wret (c : wcall) : Type :=
  match c with
  | auth0_authorize_access_token => unit
  | auth0_get_json _ => gmap string json
  | auth0_authorize_redirect _ _ => response
  | add_user _ _ _ => json
  | url_for _ _ => string
  | urlencode _ => string
  | call_func => response
  end.

(** A computation that makes calls and ends in a value. *)
Inductive tree (A : Type) : Type :=
| Done (a : A)
| Ask (c : wcall) (k : result (wret c) -> tree A).
Arguments Done {A} a.
Arguments Ask {A} c k.

Fixpoint tree_bind {A B : Type} (t : tree A) (f : A -> tree B) : tree B :=
  match t with
  | Done a => f a
  | Ask c k => Ask c (fun r => tree_bind (k r) f)
  end.

(** A route: from the session it finds to the session it leaves and what
    it returns or raises.  What a route wrote in the session before it
    raised stays written. *)
Definition web (A : Type) : Type :=
  gmap string (gmap string json) -> tree (gmap string (gmap string json) * result A).

Definition web_ret {A : Type} (a : A) : web A := fun s => Done (s, Ok a).
Definition web_lift {A : Type} (r : result A) : web A := fun s => Done (s, r).

(** A call out of the module.  The session of the model holds the entries
    the routes of this module read and write; what a library keeps in the
    session for its own use is not part of it. *)
Definition ask (c : wcall) : web (wret c) := fun s => Ask c (fun r => Done (s, r)).

Global Instance web_bind : MBind web := λ A B f m, fun s =>
  tree_bind (m s) (fun sr =>
    match sr.2 with
    | Ok a => f a sr.1
    | Raise e => Done (sr.1, Raise e)
    end).

(** [k in session], [session[k] = v] and [session.clear()]. *)
Definition session_contains (k : string) : web bool :=
  fun s => Done (s, Ok (bool_decide (is_Some (s !! k)))).
Definition session_setitem (k : string) (v : gmap string json) : web unit :=
  fun s => Done (<[k := v]> s, Ok tt).
Definition session_clear : web unit := fun s => Done (∅, Ok tt).

Definition whandler : Type := forall c : wcall, result (wret c).

Fixpoint tree_run {A : Type} (h : whandler) (t : tree A) : list wcall * A :=
  match t with
  | Done a => ([], a)
  | Ask c k => let '(l, a) := tree_run h (k (h c)) in (c :: l, a)
  end.

(** Serving one request: the calls made, the session left and the
    outcome. *)
Definition serve {A : Type} (h : whandler) (route : web A)
           (session : gmap string (gmap string json))
  : list wcall * (gmap string (gmap string json) * result A) :=
  tree_run h (route session).

(** [decorated], the function [requires_auth(func)] returns. *)
Definition requires_auth : web response :=
  logged_in ← session_contains "profile";
  if negb logged_in then
    web_ret (jsonify {[ "success" := JBool false;
                        "error" := JStr "Authentication failure" ]})
  else ask call_func.

Definition callback_handling : web response :=
  ask auth0_authorize_access_token;;
  userinfo ← ask (auth0_get_json "userinfo");
  session_setitem "jwt_payload" userinfo;;
  user_id ← web_lift (dict_getitem userinfo "sub");
  name ← web_lift (dict_getitem userinfo "name");
  picture ← web_lift (dict_getitem userinfo "picture");
  session_setitem "profile"
    {[ "user_id" := user_id; "name" := name; "picture" := picture ]};;
  name' ← web_lift (dict_getitem userinfo "name");
  picture' ← web_lift (dict_getitem userinfo "picture");
  sub' ← web_lift (dict_getitem userinfo "sub");
  res ← ask (add_user name' picture' sub');
  if json_truthy res then
    web_ret (jsonify {[ "success" := JBool false; "error" := res ]})
  else
    location ← ask (url_for "users.list_all_users" false);
    web_ret (Redirect location).

Definition login : web response :=
  ask (auth0_authorize_redirect "http://localhost:8080/api/v1/auth/callback"
                                "https://durian-inc.auth0.com/userinfo").

(** [auth0.api_base_url], as registered. *)
Definition api_base_url : string := "https://durian-inc.auth0.com".

Definition logout : web response :=
  session_clear;;
  returnTo ← ask (url_for "auth.api_public" true);
  query ← ask (urlencode [("returnTo", returnTo); ("client_id", CLIENT_ID)]);
  web_ret (Redirect (api_base_url +:+ "/v2/logout?" +:+ query)).

(** The session a completed login leaves for a user. *)
Definition logged_in_as (userinfo : gmap string json) (user_id name picture : json)
           (session : gmap string (gmap string json))
  : gmap string (gmap string json) :=
  <["profile" := {[ "user_id" := user_id; "name" := name; "picture" := picture ]}]>
    (<["jwt_payload" := userinfo]> session).

(** A user as the provider describes it, and surroundings that answer the
    provider calls with [userinfo], [add_user] with [res], and the wrapped
    function with [r]. *)
Definition sample_userinfo : gmap string json :=
  {[ "sub" := JStr "auth0|5bc"; "name" := JStr "Ada";
     "picture" := JStr "https://example.com/ada.png";
     "nickname" := JStr "ada" ]}.

Definition sample_whandler (userinfo : result (gmap string json))
           (res : result json) (r : R) : whandler :=
  fun c =>
    match c return result (wret c) with
    | auth0_authorize_access_token => Ok tt
    | auth0_get_json _ => userinfo
    | auth0_authorize_redirect uri _ => Ok (Redirect uri)
    | add_user _ _ _ => res
    | url_for endpoint _ => Ok ("/" +:+ endpoint)
    | urlencode _ => Ok "returnTo=x&client_id=y"
    | call_func => Ok (External r)
    end.

End SessionRoutes.

Arguments JsonResponse {R} body status_code.
Arguments Redirect {R} location.
Arguments External {R} r.
Arguments jsonify {R} body.
Arguments handle_auth_error {R} error status_code.
Arguments Done {R A} a.
Arguments Ask {R A} c k.
Arguments serve {R A} h route session.
Arguments requires_auth {R}.
Arguments callback_handling {R}.
Arguments login {R}.
Arguments logout {R} CLIENT_ID.
Arguments sample_whandler {R} userinfo res r.

(* ===================================================================== *)
(** ** Facts about the string builtins                                    *)
(* ===================================================================== *)

Module PyStrFacts.
Import PyStr.

Lemma split_nil : split "" = [].
Proof. reflexivity. Qed.

Lemma app_cons c s t : String c s +:+ t = String c (s +:+ t).
Proof. reflexivity. Qed.

Lemma app_nil_r s : s +:+ "" = s.
Proof.
  induction s as [|c s IH]; [reflexivity|]. rewrite app_cons. now f_equal.
Qed.

Lemma split_cons_space c s : isspace c = true -> split (String c s) = split s.
Proof.
  intros Hc. unfold split. simpl. destruct (split_aux s) as [w ws].
  now rewrite Hc.
Qed.

Lemma split_cons_nospace c s :
  isspace c = false ->
  split (String c s) = String c (split_aux s).1 :: (split_aux s).2.
Proof.
  intros Hc. unfold split. simpl. destruct (split_aux s) as [w ws].
  now rewrite Hc.
Qed.

(** Leading spaces are dropped. *)
Lemma split_app_allspace ws s : allspace ws = true -> split (ws +:+ s) = split s.
Proof.
  induction ws as [|c ws IH]; simpl; intros H; [reflexivity|].
  apply andb_prop in H as [Hc Hws].
  rewrite app_cons, split_cons_space by exact Hc. auto.
Qed.

Lemma split_aux_word w r :
  nospace w = true -> word_end r = true -> split_aux (w +:+ r) = (w, split r).
Proof.
  intros Hw Hr. induction w as [|a w IH]; simpl in *.
  - destruct r as [|c r]; [reflexivity|]. simpl in Hr.
    unfold split. simpl. destruct (split_aux r) as [w' ws']. now rewrite Hr.
  - apply andb_prop in Hw as [Ha Hw]. apply negb_true_iff in Ha.
    rewrite (IH Hw). now rewrite Ha.
Qed.

(** A word followed by the end or by a space is the first part. *)
Lemma split_app_word w r :
  w <> "" -> nospace w = true -> word_end r = true ->
  split (w +:+ r) = w :: split r.
Proof.
  intros Hne Hw Hr. unfold split at 1. rewrite split_aux_word by assumption.
  destruct w; [congruence | reflexivity].
Qed.

Lemma split_allspace ws : allspace ws = true -> split ws = [].
Proof.
  induction ws as [|c ws IH]; cbn [allspace]; intros H; [reflexivity|].
  apply andb_prop in H as [Hc H]. rewrite split_cons_space by exact Hc. auto.
Qed.

Lemma word_end_app_allspace ws r :
  ws <> "" -> allspace ws = true -> word_end (ws +:+ r) = true.
Proof.
  destruct ws as [|c ws]; [congruence|]. rewrite app_cons. simpl. intros _ H.
  now apply andb_prop in H as [Hc _].
Qed.

(** The shape of a header with exactly two parts: optional spaces, a
    word, at least one space, a word, optional spaces. *)
Lemma split_two_words ws0 w1 ws1 w2 ws2 :
  allspace ws0 = true -> w1 <> "" -> nospace w1 = true ->
  ws1 <> "" -> allspace ws1 = true -> w2 <> "" -> nospace w2 = true ->
  allspace ws2 = true ->
  split (ws0 +:+ w1 +:+ ws1 +:+ w2 +:+ ws2) = [w1; w2].
Proof.
  intros H0 N1 H1 N1' H1' N2 H2 H2'.
  rewrite split_app_allspace by assumption.
  rewrite split_app_word; try assumption.
  2:{ now apply word_end_app_allspace. }
  rewrite split_app_allspace by assumption.
  rewrite split_app_word; try assumption.
  2:{ destruct ws2 as [|c ws2]; [reflexivity|]. simpl in *.
      now apply andb_prop in H2' as [Hc _]. }
  now rewrite split_allspace.
Qed.

(** Splitting undoes joining words with single spaces. *)
Lemma split_join_space ws :
  Forall (fun w => w <> "" /\ nospace w = true) ws -> split (join_space ws) = ws.
Proof.
  induction 1 as [|w ws [Hne Hw] Hws IH]; [reflexivity|].
  destruct ws as [|w' ws].
  - cbn [join_space]. rewrite <- (app_nil_r w) at 1.
    now rewrite split_app_word.
  - change (join_space (w :: w' :: ws))
      with (w +:+ String " " (join_space (w' :: ws))).
    rewrite split_app_word by (assumption || reflexivity).
    rewrite split_cons_space by reflexivity. now rewrite IH.
Qed.

(** Every part is a non-empty run of non-space characters. *)
Lemma split_aux_words s :
  nospace (split_aux s).1 = true /\
  Forall (fun w => w <> "" /\ nospace w = true) (split_aux s).2.
Proof.
  induction s as [|c s [IHw IHws]]; simpl; [split; [reflexivity | constructor]|].
  destruct (split_aux s) as [w ws]; simpl in *.
  destruct (isspace c) eqn:Hc; simpl.
  - split; [reflexivity|]. destruct w; simpl; [assumption|].
    constructor; [split; [discriminate | assumption] | assumption].
  - split; [now rewrite Hc | assumption].
Qed.

Lemma split_words s : Forall (fun w => w <> "" /\ nospace w = true) (split s).
Proof.
  unfold split. pose proof (split_aux_words s) as [Hw Hws].
  destruct (split_aux s) as [w ws]; simpl in *.
  destruct w; simpl; [assumption|].
  constructor; [split; [discriminate | assumption] | assumption].
Qed.

(** No part at all exactly when the string is made of spaces. *)
Lemma split_nil_iff s : split s = [] <-> allspace s = true.
Proof.
  split; [|apply split_allspace].
  induction s as [|c s IH]; [reflexivity|].
  destruct (isspace c) eqn:Hc.
  - rewrite split_cons_space by exact Hc. intros H.
    cbn [allspace]. rewrite Hc. auto.
  - rewrite split_cons_nospace by exact Hc. discriminate.
Qed.

(** *** Lower-casing against the literal "bearer" *)

Lemma lower_char_bearer (c : ascii) :
  (lower_char c = "b"%char <-> eq_char_ignore_case c "b" = true) /\
  (lower_char c = "e"%char <-> eq_char_ignore_case c "e" = true) /\
  (lower_char c = "a"%char <-> eq_char_ignore_case c "a" = true) /\
  (lower_char c = "r"%char <-> eq_char_ignore_case c "r" = true).
Proof.
  destruct c as [[] [] [] [] [] [] [] []]; vm_compute;
    repeat split; intros E; first [reflexivity | discriminate E].
Qed.

(** [scheme.lower() == "bearer"] holds exactly for the spellings of
    "bearer" in any mix of cases. *)
Lemma lower_bearer_iff (s : string) :
  lower s = "bearer" <-> eq_ignore_case s "bearer" = true.
Proof.
  destruct s as [|c1 [|c2 [|c3 [|c4 [|c5 [|c6 [|c7 s]]]]]]];
    cbn [lower eq_ignore_case];
    try solve [split; intros H;
               [discriminate H
               |repeat (apply andb_prop in H as [? H]); discriminate H]].
  - pose proof (lower_char_bearer c1) as (B1 & _).
    pose proof (lower_char_bearer c2) as (_ & E2 & _).
    pose proof (lower_char_bearer c3) as (_ & _ & A3 & _).
    pose proof (lower_char_bearer c4) as (_ & _ & _ & R4).
    pose proof (lower_char_bearer c5) as (_ & E5 & _).
    pose proof (lower_char_bearer c6) as (_ & _ & _ & R6).
    split.
    + intros H. injection H as H1 H2 H3 H4 H5 H6.
      rewrite (proj1 B1 H1), (proj1 E2 H2), (proj1 A3 H3), (proj1 R4 H4),
        (proj1 E5 H5), (proj1 R6 H6). reflexivity.
    + intros H. repeat (apply andb_prop in H as [? H]).
      rewrite (proj2 B1), (proj2 E2), (proj2 A3), (proj2 R4), (proj2 E5),
        (proj2 R6) by assumption. reflexivity.
Qed.

End PyStrFacts.

(* ===================================================================== *)
(** ** Header extraction                                                  *)
(* ===================================================================== *)

Section HeaderFacts.
Import PyStr PyStrFacts.

Example split_bearer : split "Bearer abc.def.ghi" = ["Bearer"; "abc.def.ghi"].
Proof. reflexivity. Qed.

Example split_runs : split "  a   b c " = ["a"; "b"; "c"].
Proof. reflexivity. Qed.

Example lower_mixed : lower "BeArEr" = "bearer".
Proof. reflexivity. Qed.

Lemma split_cons_nonempty auth scheme rest :
  split auth = scheme :: rest -> not_auth (Some auth) = false.
Proof. destruct auth; [discriminate | reflexivity]. Qed.

(** The outcome on a header that has a first part, by the scheme and the
    number of parts. *)
Lemma get_token_auth_header_parts auth scheme rest :
  split auth = scheme :: rest ->
  get_token_auth_header (Some auth) =
  if negb (String.eqb (lower scheme) "bearer") then
    Raise (AuthError (error_dict "invalid_header"
                        "Authorization header must start with Bearer") 401)
  else match rest with
       | [] => Raise (AuthError (error_dict "invalid_header" "Token not found") 401)
       | [token] => Ok token
       | _ :: _ :: _ =>
           Raise (AuthError (error_dict "invalid_header"
                               "Authorization header must be Bearer token") 401)
       end.
Proof.
  intros Hparts. unfold get_token_auth_header.
  rewrite (split_cons_nonempty _ _ _ Hparts).
  change (default "" (Some auth)) with auth.
  rewrite Hparts. cbn.
  destruct (String.eqb (lower scheme) "bearer"); cbn; [|reflexivity].
  destruct rest as [|token [|x rest]]; reflexivity.
Qed.

(** A header made of spaces only has no first part: [parts[0]] raises. *)
Lemma get_token_auth_header_spaces auth :
  auth <> "" -> allspace auth = true ->
  get_token_auth_header (Some auth) = Raise IndexError.
Proof.
  intros Hne Hsp. unfold get_token_auth_header.
  destruct auth as [|c auth]; [congruence|]. cbn [not_auth truthy negb].
  change (default "" (Some (String c auth))) with (String c auth).
  now rewrite split_allspace.
Qed.

(** Whatever the header, a failure of the extraction is the [IndexError]
    of a header without parts or an [AuthError] with status 401. *)
Lemma get_token_auth_header_errors auth e :
  get_token_auth_header auth = Raise e ->
  e = IndexError \/
  exists code description, e = AuthError (error_dict code description) 401.
Proof.
  unfold get_token_auth_header.
  destruct (not_auth auth); [intros [= <-]; eauto|].
  destruct (split (default "" auth)) as [|scheme rest]; cbn;
    [intros [= <-]; eauto|].
  destruct (String.eqb (lower scheme) "bearer"); cbn; [|intros [= <-]; eauto].
  destruct rest as [|token [|x rest]]; cbn; intros [= <-]; eauto.
Qed.

(** C3.  A header of exactly two whitespace-separated parts whose first
    part is "bearer" in any mix of cases yields its second part as the
    token. *)
Theorem bearer_two_parts auth scheme token :
  split auth = [scheme; token] ->
  eq_ignore_case scheme "bearer" = true ->
  get_token_auth_header (Some auth) = Ok token.
Proof.
  intros Hparts Hscheme. apply lower_bearer_iff in Hscheme.
  rewrite (get_token_auth_header_parts _ _ _ Hparts), Hscheme.
  reflexivity.
Qed.

(** The same for the header written the usual way: the scheme, one
    space, a token without spaces. *)
Lemma bearer_space_token token :
  token <> "" -> nospace token = true ->
  get_token_auth_header (Some ("Bearer " +:+ token)) = Ok token.
Proof.
  intros Hne Hns.
  pose proof (split_two_words "" "Bearer" " " token "") as Hs.
  rewrite (app_nil_r token) in Hs. cbn in Hs.
  rewrite (get_token_auth_header_parts _ "Bearer" [token]).
  - reflexivity.
  - apply Hs; try reflexivity; try assumption; discriminate.
Qed.

(** C4.  On a header that has a first part the three rejections come in
    the order of the source: a scheme that does not lower to "bearer",
    whatever the number of parts; then a single part; then more than two
    parts.  Each carries the code invalid_header and the status 401. *)
Theorem header_rejections auth scheme rest :
  split auth = scheme :: rest ->
  (lower scheme <> "bearer" ->
   get_token_auth_header (Some auth) =
   Raise (AuthError (error_dict "invalid_header"
                       "Authorization header must start with Bearer") 401)) /\
  (lower scheme = "bearer" -> rest = [] ->
   get_token_auth_header (Some auth) =
   Raise (AuthError (error_dict "invalid_header" "Token not found") 401)) /\
  (lower scheme = "bearer" -> (2 < length (scheme :: rest))%nat ->
   get_token_auth_header (Some auth) =
   Raise (AuthError (error_dict "invalid_header"
                       "Authorization header must be Bearer token") 401)).
Proof.
  intros Hparts. rewrite (get_token_auth_header_parts _ _ _ Hparts).
  repeat split.
  - intros Hne. apply String.eqb_neq in Hne. now rewrite Hne.
  - intros -> ->. reflexivity.
  - intros -> Hlen. cbn.
    destruct rest as [|x [|y rest]]; cbn in Hlen; [lia | lia | reflexivity].
Qed.

(** C10.  An Authorization header equal to the empty string is rejected
    as a missing header, exactly as an absent one. *)
Theorem empty_header_is_missing :
  get_token_auth_header (Some "") =
  Raise (AuthError (error_dict "authorization_header_missing"
                               "Authorization header is expected") 401) /\
  get_token_auth_header (Some "") = get_token_auth_header None.
Proof. split; reflexivity. Qed.

End HeaderFacts.

(** A scheme in mixed case and two spaces before the token. *)
Lemma bearer_two_parts_witness :
  get_token_auth_header (Some "bEaReR  abc.def.ghi") = Ok "abc.def.ghi".
Proof.
  apply (bearer_two_parts "bEaReR  abc.def.ghi" "bEaReR" "abc.def.ghi");
    reflexivity.
Defined.

(** Another scheme; the scheme alone; the scheme and two more parts. *)
Lemma header_rejections_witness :
  get_token_auth_header (Some "Basic xyz") =
  Raise (AuthError (error_dict "invalid_header"
                      "Authorization header must start with Bearer") 401) /\
  get_token_auth_header (Some "Bearer") =
  Raise (AuthError (error_dict "invalid_header" "Token not found") 401) /\
  get_token_auth_header (Some "BEARER a b") =
  Raise (AuthError (error_dict "invalid_header"
                      "Authorization header must be Bearer token") 401).
Proof.
  split; [|split].
  - apply (header_rejections "Basic xyz" "Basic" ["xyz"]);
      [reflexivity | discriminate].
  - apply (header_rejections "Bearer" "Bearer" []); reflexivity.
  - apply (header_rejections "BEARER a b" "BEARER" ["a"; "b"]);
      [reflexivity | reflexivity | cbn; lia].
Defined.

(* ===================================================================== *)
(** ** Running the two functions                                          *)
(* ===================================================================== *)

Section Verification.

Context {Response : Type}.
Variables AUTH0_DOMAIN API_AUDIENCE : string.
Implicit Types (h : handler Response) (auth : option string).
Implicit Types (token : string) (rsa_key : gmap string string).

Local Abbreviation decorated :=
  (requires_auth_token (Response := Response) AUTH0_DOMAIN API_AUDIENCE).
Local Abbreviation url := (jwks_url AUTH0_DOMAIN).
Local Abbreviation decode := (decode_call AUTH0_DOMAIN API_AUDIENCE).
Local Abbreviation reaches := (reaches_verification AUTH0_DOMAIN).

(** The calls and the outcome of [decorated], stage by stage. *)
Lemma run_decorated h auth :
  run h (decorated auth) =
  match get_token_auth_header auth with
  | Raise e => ([], Raise e)
  | Ok token =>
    match h (urlopen_read url) with
    | Raise e => ([urlopen_read url], Raise e)
    | Ok body =>
      match h (json_loads body) with
      | Raise e => ([urlopen_read url; json_loads body], Raise e)
      | Ok jwks =>
        let pre := [urlopen_read url; json_loads body;
                    jwt_get_unverified_header token] in
        match h (jwt_get_unverified_header token) with
        | Raise e => (pre, Raise e)
        | Ok unverified_header =>
          match (keys ← dict_getitem jwks "keys";
                 select_key keys unverified_header ∅) with
          | Raise e => (pre, Raise e)
          | Ok rsa_key =>
            if dict_truthy rsa_key then
              match h (decode token rsa_key) with
              | Raise e => (pre ++ [decode token rsa_key], Raise (decode_except e))
              | Ok payload =>
                match h (set_current_user payload) with
                | Raise e =>
                    (pre ++ [decode token rsa_key; set_current_user payload],
                     Raise e)
                | Ok _ =>
                    (pre ++ [decode token rsa_key; set_current_user payload; view],
                     h view)
                end
              end
            else
              (pre, Raise (AuthError (error_dict "invalid_header"
                                        "Unable to find appropriate key") 401))
          end
        end
      end
    end
  end.
Proof.
  unfold requires_auth_token, jwks_url, decode_call.
  destruct (get_token_auth_header auth) as [token|e]; [|reflexivity].
  cbn. destruct (h (urlopen_read _)) as [body|e]; [|reflexivity].
  cbn. destruct (h (json_loads body)) as [jwks|e]; [|reflexivity].
  cbn. destruct (h (jwt_get_unverified_header token)) as [hdr|e]; [|reflexivity].
  cbn. destruct (dict_getitem jwks "keys") as [keys|e]; [|reflexivity].
  cbn. destruct (select_key keys hdr ∅) as [rsa_key|e]; [|reflexivity].
  cbn. destruct (dict_truthy rsa_key); [|reflexivity].
  cbn. destruct (h (jwt_decode _ _ _ _ _)) as [payload|e]; [|reflexivity].
  cbn. destruct (h (set_current_user payload)) as [[]|e]; [|reflexivity].
  cbn. destruct (h view); reflexivity.
Qed.

(** *** The key loop *)

(** No key with the identifier of the header: the loop leaves [rsa_key]
    as it found it. *)
Lemma select_key_no_match keys (unverified_header : gmap string string) kid rsa_key :
  unverified_header !! "kid" = Some kid ->
  Forall (fun key : gmap string string =>
            exists k, key !! "kid" = Some k /\ k <> kid) keys ->
  select_key keys unverified_header rsa_key = Ok rsa_key.
Proof.
  intros Hkid Hkeys. induction Hkeys as [|key keys (k & Hk & Hne) _ IH];
    [reflexivity|].
  simpl. unfold dict_getitem. rewrite Hk, Hkid. simpl.
  apply String.eqb_neq in Hne. rewrite Hne. exact IH.
Qed.

(** A key with the identifier of the header, in a set of complete keys:
    the loop leaves a non-empty [rsa_key]. *)
Lemma select_key_found keys (unverified_header : gmap string string) kid rsa_key :
  unverified_header !! "kid" = Some kid ->
  Forall jwk_complete keys ->
  rsa_key <> ∅ \/ (exists key : gmap string string,
                      key ∈ keys /\ key !! "kid" = Some kid) ->
  exists rsa_key', select_key keys unverified_header rsa_key = Ok rsa_key' /\
                   rsa_key' <> ∅.
Proof.
  intros Hkid Hkeys. revert rsa_key.
  induction Hkeys as [|key keys Hc _ IH]; intros rsa_key Hor.
  - destruct Hor as [Hne | (key & Hin & _)]; [eauto|].
    now apply elem_of_nil in Hin.
  - destruct Hc as ([kty Hkty] & [k Hk] & [use Huse] & [n Hn] & [e He]).
    simpl. unfold dict_getitem. rewrite Hk, Hkid, Hkty, Huse, Hn, He. simpl.
    destruct (String.eqb k kid) eqn:Heq.
    + apply IH. left. apply insert_non_empty.
    + apply IH. destruct Hor as [Hne | (key' & Hin & Hk')]; [now left|].
      apply elem_of_cons in Hin as [-> | Hin]; [|right; eauto].
      apply String.eqb_neq in Heq. congruence.
Qed.

(** *** The decorator *)

(** The run of a request that reaches [jwt.decode], by what the library
    answers. *)
Lemma run_decorated_reaches h auth token rsa_key :
  reaches h auth token rsa_key ->
  exists body,
    run h (decorated auth) =
    let pre := [urlopen_read url; json_loads body;
                jwt_get_unverified_header token] in
    match h (decode token rsa_key) with
    | Raise e => (pre ++ [decode token rsa_key], Raise (decode_except e))
    | Ok payload =>
        match h (set_current_user payload) with
        | Raise e =>
            (pre ++ [decode token rsa_key; set_current_user payload], Raise e)
        | Ok _ =>
            (pre ++ [decode token rsa_key; set_current_user payload; view],
             h view)
        end
    end.
Proof.
  intros (body & jwks & hdr & keys & Htok & Hurl & Hjson & Hhdr & Hkeys & Hsel & Hne).
  exists body. rewrite run_decorated, Htok, Hurl, Hjson, Hhdr.
  unfold dict_getitem. rewrite Hkeys. cbn. rewrite Hsel.
  unfold dict_truthy. rewrite bool_decide_eq_true_2 by exact Hne.
  reflexivity.
Qed.

(** A published key with the identifier the header of the token names, in
    a set of complete keys, takes the request to [jwt.decode]. *)
Lemma matched_key_reaches h auth token (body : string)
      (jwks : gmap string (list (gmap string string)))
      (unverified_header : gmap string string) keys kid
      (key : gmap string string) :
  get_token_auth_header auth = Ok token ->
  h (urlopen_read url) = Ok body ->
  h (json_loads body) = Ok jwks ->
  h (jwt_get_unverified_header token) = Ok unverified_header ->
  jwks !! "keys" = Some keys ->
  unverified_header !! "kid" = Some kid ->
  Forall jwk_complete keys ->
  key ∈ keys -> key !! "kid" = Some kid ->
  exists rsa_key, reaches h auth token rsa_key.
Proof.
  intros Htok Hurl Hjson Hhdr Hkeys Hkid Hcomplete Hin Hk.
  destruct (select_key_found keys unverified_header kid ∅ Hkid Hcomplete)
    as (rsa_key & Hsel & Hne); [right; eauto|].
  exists rsa_key, body, jwks, unverified_header, keys. auto 10.
Qed.

(** X9.  The view function answers only a request that got through every
    stage: no rejection ends in a response. *)
Lemma view_only_after_verification h auth (r : Response) :
  (run h (decorated auth)).2 = Ok r ->
  exists token rsa_key payload,
    reaches h auth token rsa_key /\
    h (decode token rsa_key) = Ok payload /\
    h (set_current_user payload) = Ok tt /\
    h view = Ok r.
Proof.
  rewrite run_decorated.
  destruct (get_token_auth_header auth) as [token|] eqn:Htok; [|discriminate].
  destruct (h (urlopen_read url)) as [body|] eqn:Hurl; [|discriminate].
  destruct (h (json_loads body)) as [jwks|] eqn:Hjson; [|discriminate].
  destruct (h (jwt_get_unverified_header token)) as [hdr|] eqn:Hhdr;
    [|discriminate].
  cbn in body, jwks, hdr. unfold dict_getitem.
  destruct (jwks !! "keys") as [keys|] eqn:Hkeys; cbn; [|discriminate].
  destruct (select_key keys hdr ∅) as [rsa_key|] eqn:Hsel; cbn; [|discriminate].
  unfold dict_truthy. case_bool_decide as Hne; cbn; [|discriminate].
  destruct (h (decode token rsa_key)) as [payload|] eqn:Hdec; cbn;
    [|discriminate].
  destruct (h (set_current_user payload)) as [[]|] eqn:Hset; cbn;
    [|discriminate].
  intros Hview.
  exists token, rsa_key, payload. repeat apply conj; try assumption.
  exists body, jwks, hdr, keys. auto 10.
Qed.


(** A request that reaches verification does make the call, with the
    configured audience and the domain followed by a slash as issuer. *)
Lemma verification_invoked h auth token rsa_key :
  reaches h auth token rsa_key ->
  jwt_decode token rsa_key ["RS256"] API_AUDIENCE (AUTH0_DOMAIN +:+ "/")
    ∈ (run h (decorated auth)).1.
Proof.
  intros Hr. destruct (run_decorated_reaches _ _ _ _ Hr) as [body ->].
  unfold decode_call, ALGORITHMS.
  cbn. repeat case_match; cbn; rewrite !elem_of_cons; auto 10.
Qed.

(** C5.  When the header of the token names a key identifier that no
    published key carries, the outcome is the invalid_header error
    "Unable to find appropriate key" with status 401, and no [jwt.decode]
    call is made. *)
Theorem no_matching_key h auth token (body : string)
        (jwks : gmap string (list (gmap string string)))
        (unverified_header : gmap string string) keys kid :
  get_token_auth_header auth = Ok token ->
  h (urlopen_read url) = Ok body ->
  h (json_loads body) = Ok jwks ->
  h (jwt_get_unverified_header token) = Ok unverified_header ->
  jwks !! "keys" = Some keys ->
  unverified_header !! "kid" = Some kid ->
  Forall (fun key : gmap string string =>
            exists k, key !! "kid" = Some k /\ k <> kid) keys ->
  (run h (decorated auth)).2 =
    Raise (AuthError (error_dict "invalid_header"
                                 "Unable to find appropriate key") 401) /\
  Forall (fun c => is_jwt_decode c = false) (run h (decorated auth)).1.
Proof.
  intros Htok Hurl Hjson Hhdr Hkeys Hkid Hnone.
  rewrite run_decorated, Htok, Hurl, Hjson, Hhdr.
  unfold dict_getitem. rewrite Hkeys. cbn.
  rewrite (select_key_no_match _ _ _ _ Hkid Hnone). cbn.
  split; [reflexivity | repeat constructor].
Qed.

(** C7.  When the request reaches verification and python-jose reports
    the token expired, the outcome is the token_expired error
    "token is expired" with status 401. *)
Theorem expired_token h auth token rsa_key :
  reaches h auth token rsa_key ->
  h (decode token rsa_key) = Raise ExpiredSignatureError ->
  (run h (decorated auth)).2 =
    Raise (AuthError (error_dict "token_expired" "token is expired") 401).
Proof.
  intros Hr Hdec. destruct (run_decorated_reaches _ _ _ _ Hr) as [body ->].
  cbn. now rewrite Hdec.
Qed.

(** X24.  When the request reaches verification with a matched key and
    [jwt.decode] fails with any exception other than the expired-signature
    and the claims errors (python-jose's [JWTError] for a token it cannot
    decode or a signature it rejects, or any other subclass of
    [Exception]), the outcome is the invalid_header error
    "Unable to parse authentication token." with status 401. *)
Theorem unparseable_token h auth token rsa_key e :
  reaches h auth token rsa_key ->
  h (decode token rsa_key) = Raise e ->
  is_Exception e = true ->
  e <> ExpiredSignatureError -> e <> JWTClaimsError ->
  (run h (decorated auth)).2 =
    Raise (AuthError (error_dict "invalid_header"
                                 "Unable to parse authentication token.") 401).
Proof.
  intros Hr Hdec Hexc Hne1 Hne2.
  destruct (run_decorated_reaches _ _ _ _ Hr) as [body ->].
  cbn. rewrite Hdec. cbn.
  destruct e; try congruence; try discriminate Hexc; reflexivity.
Qed.

(** C6.  When the request reaches verification and python-jose reports a
    claims error (audience or issuer), the outcome is the invalid_claims
    error with status 401, but its description is the two literals of the
    source joined as they stand, "incorrect claims,please check the
    audience and issuer": the space after the comma is missing. *)
Theorem claims_error_description h auth token rsa_key :
  reaches h auth token rsa_key ->
  h (decode token rsa_key) = Raise JWTClaimsError ->
  (run h (decorated auth)).2 =
    Raise (AuthError (error_dict "invalid_claims"
             "incorrect claims,please check the audience and issuer") 401) /\
  (run h (decorated auth)).2 <>
    Raise (AuthError (error_dict "invalid_claims"
             "incorrect claims, please check the audience and issuer") 401).
Proof.
  intros Hr Hdec. destruct (run_decorated_reaches _ _ _ _ Hr) as [body ->].
  cbn. rewrite Hdec. cbn. split; [reflexivity|].
  intros H.
  apply (f_equal (fun r : result Response =>
                    match r with
                    | Raise (AuthError error _) => error !! "description"
                    | _ => None
                    end)) in H.
  vm_compute in H. discriminate H.
Qed.

(** A failure to decode the header of the token happens before the [try]
    statement: the exception of the library leaves the decorator as it
    is. *)
Lemma header_decode_failure_escapes h auth token (body : string)
      (jwks : gmap string (list (gmap string string))) e :
  get_token_auth_header auth = Ok token ->
  h (urlopen_read url) = Ok body ->
  h (json_loads body) = Ok jwks ->
  h (jwt_get_unverified_header token) = Raise e ->
  (run h (decorated auth)).2 = Raise e.
Proof.
  intros Htok Hurl Hjson Hhdr.
  now rewrite run_decorated, Htok, Hurl, Hjson, Hhdr.
Qed.

(** C2.  Two rejections that leave the decorator as something else than
    an [AuthError]: a header made of one space has no first part and
    [parts[0]] raises [IndexError] before any call is made; a token whose
    header python-jose cannot decode raises [JWTError] outside the [try]
    statement. *)
Theorem rejection_not_auth_error h (resp : Response) :
  run h (decorated (Some " ")) = ([], Raise IndexError) /\
  is_AuthError IndexError = false /\
  (run (sample_handler resp (Raise JWTError) (Raise JWTError) (Raise JWTError))
       (decorated (Some "Bearer abc"))).2 = Raise JWTError /\
  is_AuthError JWTError = false.
Proof.
  split; [now rewrite run_decorated|].
  split; [reflexivity|]. split; reflexivity.
Qed.

(** *** The scope check *)

(** The loop answers whether [required_scope] is among [token_scopes]. *)
Lemma run_scope_loop h token_scopes required_scope :
  (forall s, h (print s) = Ok tt) ->
  (run h (scope_loop token_scopes required_scope)).2 =
  Ok (bool_decide (required_scope ∈ token_scopes)).
Proof.
  intros Hprint. induction token_scopes as [|token_scope rest IH].
  - reflexivity.
  - cbn. rewrite Hprint. cbn.
    destruct (bool_decide (token_scope = required_scope)) eqn:Heq.
    + apply bool_decide_eq_true_1 in Heq as ->. cbn.
      rewrite bool_decide_eq_true_2; [reflexivity | apply list_elem_of_here].
    + apply bool_decide_eq_false_1 in Heq.
      destruct (run h (scope_loop rest required_scope)) as [t r] eqn:Hrun.
      cbn in IH |- *. rewrite IH. f_equal. apply bool_decide_ext.
      rewrite elem_of_cons. intuition congruence.
Qed.

(** C9, as the code has it.  [requires_scope] first extracts the token:
    when that fails, the [AuthError] (or the [IndexError]) of
    [get_token_auth_header] leaves [requires_scope] and no call is made.
    When it succeeds, python-jose decodes the claims and the debugging
    [print] of each scope goes through, the answer is [False] if there is
    no scope claim, and otherwise whether [required_scope] is one of the
    whitespace-separated parts of the scope claim. *)
Theorem requires_scope_outcome h auth required_scope :
  (forall e, get_token_auth_header auth = Raise e ->
             run h (requires_scope auth required_scope) = ([], Raise e)) /\
  (forall token (unverified_claims : gmap string json),
      get_token_auth_header auth = Ok token ->
      h (jwt_get_unverified_claims token) = Ok unverified_claims ->
      (forall s, h (print s) = Ok tt) ->
      (unverified_claims !! "scope" = None ->
       (run h (requires_scope auth required_scope)).2 = Ok false) /\
      (forall scope, unverified_claims !! "scope" = Some (JStr scope) ->
       (run h (requires_scope auth required_scope)).2 =
       Ok (bool_decide (required_scope ∈ usplit scope)))).
Proof.
  split.
  - intros e He. unfold requires_scope. now rewrite He.
  - intros token claims Htok Hclaims Hprint. unfold requires_scope.
    rewrite Htok. cbn. rewrite Hclaims. cbn. split.
    + intros ->. reflexivity.
    + intros scope Hscope. rewrite Hscope. cbn.
      destruct scope as [|c scope]; [reflexivity|]. cbn [utruthy].
      unfold dict_getitem. rewrite Hscope. cbn.
      destruct (run h (scope_loop (usplit (c :: scope)) required_scope))
        as [t r] eqn:Hrun.
      pose proof (run_scope_loop h (usplit (c :: scope))
                    required_scope Hprint) as Hloop.
      rewrite Hrun in Hloop. exact Hloop.
Qed.

(** A scope claim that is not a string has no [split]: a non-empty list
    of scopes makes [requires_scope] raise [AttributeError]. *)
Lemma requires_scope_list_claim h auth token required_scope
      (unverified_claims : gmap string json) x l :
  get_token_auth_header auth = Ok token ->
  h (jwt_get_unverified_claims token) = Ok unverified_claims ->
  unverified_claims !! "scope" = Some (JArr (x :: l)) ->
  (run h (requires_scope auth required_scope)).2 = Raise AttributeError.
Proof.
  intros Htok Hclaims Hscope. unfold requires_scope.
  rewrite Htok. cbn. rewrite Hclaims. cbn. rewrite Hscope. cbn.
  unfold dict_getitem. now rewrite Hscope.
Qed.

End Verification.

(* ===================================================================== *)
(** ** The theorems at sample requests                                    *)
(* ===================================================================== *)

(** The header of the sample token asks for HS256; the call still carries
    ["RS256"]. *)
Example sample_header_algorithm_ignored :
  sample_header !! "alg" = Some "HS256" /\
  (run (sample_handler tt (Ok sample_header) (Ok ∅) (Ok ∅))
       (requires_auth_token "example.auth0.com" "https://api.example.com"
                            (Some "Bearer abc.def.ghi"))).1 =
  [urlopen_read "https://example.auth0.com/.well-known/jwks.json";
   json_loads "{...}";
   jwt_get_unverified_header "abc.def.ghi";
   jwt_decode "abc.def.ghi" sample_rsa_key ["RS256"]
              "https://api.example.com" "example.auth0.com/";
   set_current_user ∅;
   view].
Proof. split; reflexivity. Qed.

(** The token names the key k2; only k1 is published. *)
Lemma no_matching_key_witness :
  (run (sample_handler tt (Ok {[ "alg" := "RS256"; "kid" := "k2" ]}) (Ok ∅) (Ok ∅))
       (requires_auth_token "example.auth0.com" "https://api.example.com"
                            (Some "Bearer abc.def.ghi"))).2 =
    Raise (AuthError (error_dict "invalid_header"
                                 "Unable to find appropriate key") 401) /\
  Forall (fun c => is_jwt_decode c = false)
    (run (sample_handler tt (Ok {[ "alg" := "RS256"; "kid" := "k2" ]}) (Ok ∅) (Ok ∅))
         (requires_auth_token "example.auth0.com" "https://api.example.com"
                              (Some "Bearer abc.def.ghi"))).1.
Proof.
  apply (no_matching_key "example.auth0.com" "https://api.example.com"
           (sample_handler tt (Ok {[ "alg" := "RS256"; "kid" := "k2" ]}) (Ok ∅) (Ok ∅))
           (Some "Bearer abc.def.ghi") "abc.def.ghi" "{...}"
           {[ "keys" := [sample_jwk] ]} {[ "alg" := "RS256"; "kid" := "k2" ]}
           [sample_jwk] "k2"); try reflexivity.
  constructor; [|constructor].
  exists "k1". split; [reflexivity | discriminate].
Defined.

(** The three failures of [jwt.decode] on a token whose key is published:
    expired, undecodable, wrong claims. *)
Lemma expired_token_witness :
  (run (sample_handler tt (Ok sample_header) (Raise ExpiredSignatureError) (Ok ∅))
       (requires_auth_token "example.auth0.com" "https://api.example.com"
                            (Some "Bearer abc.def.ghi"))).2 =
    Raise (AuthError (error_dict "token_expired" "token is expired") 401).
Proof.
  refine (expired_token "example.auth0.com" "https://api.example.com"
            (sample_handler tt (Ok sample_header) (Raise ExpiredSignatureError) (Ok ∅))
            (Some "Bearer abc.def.ghi") "abc.def.ghi" sample_rsa_key _ _);
    [sample_reaches | reflexivity].
Defined.

Lemma unparseable_token_witness :
  (run (sample_handler tt (Ok sample_header) (Raise JWTError) (Ok ∅))
       (requires_auth_token "example.auth0.com" "https://api.example.com"
                            (Some "Bearer abc.def.ghi"))).2 =
    Raise (AuthError (error_dict "invalid_header"
                                 "Unable to parse authentication token.") 401).
Proof.
  apply (unparseable_token "example.auth0.com" "https://api.example.com" _ _
           "abc.def.ghi" sample_rsa_key JWTError);
    [sample_reaches | reflexivity | reflexivity | discriminate | discriminate].
Defined.

Lemma claims_error_description_witness :
  (run (sample_handler tt (Ok sample_header) (Raise JWTClaimsError) (Ok ∅))
       (requires_auth_token "example.auth0.com" "https://api.example.com"
                            (Some "Bearer abc.def.ghi"))).2 =
    Raise (AuthError (error_dict "invalid_claims"
             "incorrect claims,please check the audience and issuer") 401) /\
  (run (sample_handler tt (Ok sample_header) (Raise JWTClaimsError) (Ok ∅))
       (requires_auth_token "example.auth0.com" "https://api.example.com"
                            (Some "Bearer abc.def.ghi"))).2 <>
    Raise (AuthError (error_dict "invalid_claims"
             "incorrect claims, please check the audience and issuer") 401).
Proof.
  apply (claims_error_description "example.auth0.com" "https://api.example.com"
           _ _ "abc.def.ghi" sample_rsa_key); [sample_reaches | reflexivity].
Defined.

(** C9 as the claim words it fails on a request without an Authorization
    header: [requires_scope] raises. *)
Lemma requires_scope_raises :
  (run (sample_handler tt (Ok sample_header) (Ok ∅)
                       (Ok {[ "scope" := JStr "read:messages" ]}))
       (requires_scope None "read:messages")).2 =
    Raise (AuthError (error_dict "authorization_header_missing"
                                 "Authorization header is expected") 401) /\
  ~ exists b : bool,
      (run (sample_handler tt (Ok sample_header) (Ok ∅)
                           (Ok {[ "scope" := JStr "read:messages" ]}))
           (requires_scope None "read:messages")).2 = Ok b.
Proof.
  split; [reflexivity|]. intros [b Hb]. discriminate Hb.
Qed.

(** A header without token; a token without scope claim; a scope that is
    granted; a scope that is only the prefix of a granted one. *)
Lemma requires_scope_outcome_witness :
  run (sample_handler tt (Ok sample_header) (Ok ∅)
                      (Ok {[ "scope" := JStr "read:messages write:messages" ]}))
      (requires_scope (Some "Bearer") "write:messages") =
    ([], Raise (AuthError (error_dict "invalid_header" "Token not found") 401)) /\
  (run (sample_handler tt (Ok sample_header) (Ok ∅) (Ok ∅))
       (requires_scope (Some "Bearer abc.def.ghi") "write:messages")).2 = Ok false /\
  (run (sample_handler tt (Ok sample_header) (Ok ∅)
                       (Ok {[ "scope" := JStr "read:messages write:messages" ]}))
       (requires_scope (Some "Bearer abc.def.ghi") "write:messages")).2 = Ok true /\
  (run (sample_handler tt (Ok sample_header) (Ok ∅)
                       (Ok {[ "scope" := JStr "read:messages write:messages" ]}))
       (requires_scope (Some "Bearer abc.def.ghi") "write")).2 = Ok false.
Proof.
  split; [|split; [|split]].
  - apply (proj1 (requires_scope_outcome _ (Some "Bearer") "write:messages")).
    reflexivity.
  - apply (proj1 (proj2 (requires_scope_outcome
             (sample_handler tt (Ok sample_header) (Ok ∅) (Ok ∅))
             (Some "Bearer abc.def.ghi") "write:messages")
             "abc.def.ghi" ∅ eq_refl eq_refl (fun _ => eq_refl))).
    reflexivity.
  - exact (proj2 (proj2 (requires_scope_outcome
             (sample_handler tt (Ok sample_header) (Ok ∅)
                (Ok {[ "scope" := JStr "read:messages write:messages" ]}))
             (Some "Bearer abc.def.ghi") "write:messages")
             "abc.def.ghi" {[ "scope" := JStr "read:messages write:messages" ]}
             eq_refl eq_refl (fun _ => eq_refl))
             "read:messages write:messages" eq_refl).
  - exact (proj2 (proj2 (requires_scope_outcome
             (sample_handler tt (Ok sample_header) (Ok ∅)
                (Ok {[ "scope" := JStr "read:messages write:messages" ]}))
             (Some "Bearer abc.def.ghi") "write")
             "abc.def.ghi" {[ "scope" := JStr "read:messages write:messages" ]}
             eq_refl eq_refl (fun _ => eq_refl))
             "read:messages write:messages" eq_refl).
Defined.

(** A header made of the no-break space alone, which no trimming of
    spaces and tabs removes. *)
Example no_break_space_header :
  get_token_auth_header (Some (String "160" "")) = Raise IndexError.
Proof. reflexivity. Qed.

(** A header of one space, and a token that is not a token: neither
    rejection is an [AuthError]. *)
Example escaping_exceptions_sample :
  run (sample_handler tt (Ok sample_header) (Ok ∅) (Ok ∅))
      (requires_auth_token "example.auth0.com" "https://api.example.com"
                           (Some " ")) = ([], Raise IndexError) /\
  run (sample_handler tt (Raise JWTError) (Ok ∅) (Ok ∅))
      (requires_auth_token "example.auth0.com" "https://api.example.com"
                           (Some "Bearer abc")) =
  ([urlopen_read "https://example.auth0.com/.well-known/jwks.json";
    json_loads "{...}"; jwt_get_unverified_header "abc"], Raise JWTError).
Proof. split; reflexivity. Qed.

(* ===================================================================== *)
(** ** More on header extraction                                          *)
(* ===================================================================== *)

Section MoreHeaderFacts.
Import PyStr PyStrFacts.

(** A successful extraction, read backwards. *)
Lemma get_token_auth_header_ok_inv auth token :
  get_token_auth_header auth = Ok token ->
  exists a scheme, auth = Some a /\ split a = [scheme; token] /\
                   lower scheme = "bearer".
Proof.
  destruct auth as [a|]; [|discriminate].
  destruct (split a) as [|scheme rest] eqn:Hparts.
  - destruct a as [|c a]; [discriminate|].
    rewrite get_token_auth_header_spaces;
      [discriminate | discriminate | now apply split_nil_iff].
  - rewrite (get_token_auth_header_parts _ _ _ Hparts).
    destruct (String.eqb (lower scheme) "bearer") eqn:Hs; [|discriminate].
    apply String.eqb_eq in Hs.
    destruct rest as [|t [|x rest]]; cbn; try discriminate.
    intros [= ->]. eauto.
Qed.

(** X1.  The extraction succeeds with [token] exactly when the header is
    present, has exactly two parts, the first lowers to "bearer" and the
    second is [token]: nothing else is accepted. *)
Theorem get_token_auth_header_ok_iff auth token :
  get_token_auth_header auth = Ok token <->
  exists a scheme, auth = Some a /\ split a = [scheme; token] /\
                   lower scheme = "bearer".
Proof.
  split; [apply get_token_auth_header_ok_inv|].
  intros (a & scheme & -> & Hparts & Hs).
  rewrite (get_token_auth_header_parts _ _ _ Hparts), Hs. reflexivity.
Qed.

(** X2.  A token the extraction returns is never empty and contains no
    whitespace. *)
Theorem extracted_token_has_no_space auth token :
  get_token_auth_header auth = Ok token ->
  token <> "" /\ nospace token = true.
Proof.
  intros H. apply get_token_auth_header_ok_inv in H
    as (a & scheme & _ & Hparts & _).
  pose proof (split_words a) as Hw. rewrite Hparts in Hw.
  apply Forall_cons in Hw as [_ Hw]. now apply Forall_cons in Hw as [Hw _].
Qed.

(** X3.  Every way the extraction can fail: the header is absent or empty
    and the error is authorization_header_missing; or the header is made of
    whitespace only and [parts[0]] raises [IndexError]; or the header has a
    first part and the error is an invalid_header.  The two [AuthError]s
    carry the status 401. *)
Theorem get_token_auth_header_failures auth e :
  get_token_auth_header auth = Raise e ->
  (not_auth auth = true /\
   e = AuthError (error_dict "authorization_header_missing"
                             "Authorization header is expected") 401) \/
  (exists a, auth = Some a /\ a <> "" /\ allspace a = true /\ e = IndexError) \/
  (exists a scheme rest description,
      auth = Some a /\ split a = scheme :: rest /\
      e = AuthError (error_dict "invalid_header" description) 401).
Proof.
  destruct auth as [a|]; [|intros [= <-]; left; split; reflexivity].
  destruct a as [|c a]; [intros [= <-]; left; split; reflexivity|].
  destruct (split (String c a)) as [|scheme rest] eqn:Hparts.
  - apply split_nil_iff in Hparts.
    rewrite get_token_auth_header_spaces by (discriminate || assumption).
    intros [= <-]. right; left. exists (String c a).
    repeat apply conj; (discriminate || assumption || reflexivity).
  - rewrite (get_token_auth_header_parts _ _ _ Hparts).
    intros H. right; right. exists (String c a), scheme, rest.
    destruct (String.eqb (lower scheme) "bearer"); cbn in H.
    + destruct rest as [|t [|x rest]]; try discriminate H;
        injection H as <-; eauto.
    + injection H as <-; eauto.
Qed.

(** X4.  Only the parts of the header count: two non-empty headers with
    the same parts, whatever whitespace separates or surrounds them, have
    the same outcome. *)
Theorem same_parts_same_outcome a b :
  a <> "" -> b <> "" -> split a = split b ->
  get_token_auth_header (Some a) = get_token_auth_header (Some b).
Proof.
  intros Ha Hb Hparts. unfold get_token_auth_header.
  destruct a as [|c a]; [congruence|]. destruct b as [|d b]; [congruence|].
  cbn [not_auth truthy negb].
  change (default "" (Some (String c a))) with (String c a).
  change (default "" (Some (String d b))) with (String d b).
  now rewrite Hparts.
Qed.

End MoreHeaderFacts.

Lemma extracted_token_has_no_space_witness :
  "abc.def.ghi" <> "" /\ PyStr.nospace "abc.def.ghi" = true.
Proof.
  apply (extracted_token_has_no_space (Some "Bearer abc.def.ghi") "abc.def.ghi").
  reflexivity.
Defined.

Lemma get_token_auth_header_failures_witness :
  (not_auth (Some "Basic xyz") = true /\
   AuthError (error_dict "invalid_header"
                         "Authorization header must start with Bearer") 401 =
   AuthError (error_dict "authorization_header_missing"
                         "Authorization header is expected") 401) \/
  (exists a, Some "Basic xyz" = Some a /\ a <> "" /\ PyStr.allspace a = true /\
             AuthError (error_dict "invalid_header"
                          "Authorization header must start with Bearer") 401 =
             IndexError) \/
  (exists a scheme rest description,
      Some "Basic xyz" = Some a /\ PyStr.split a = scheme :: rest /\
      AuthError (error_dict "invalid_header"
                            "Authorization header must start with Bearer") 401 =
      AuthError (error_dict "invalid_header" description) 401).
Proof.
  apply (get_token_auth_header_failures (Some "Basic xyz")). reflexivity.
Defined.

(** Tabs and a trailing newline instead of the single space. *)
Lemma same_parts_same_outcome_witness :
  get_token_auth_header
    (Some (String "009" ("Bearer" +:+ String "009" ("abc" +:+ String "010" "")))) =
  get_token_auth_header (Some "Bearer abc").
Proof.
  apply same_parts_same_outcome; [discriminate | discriminate | reflexivity].
Defined.

(* ===================================================================== *)
(** ** More on the decorator                                              *)
(* ===================================================================== *)

Section MoreVerification.

Context {Response : Type}.
Variables AUTH0_DOMAIN API_AUDIENCE : string.
Implicit Types (h : handler Response) (auth : option string).
Implicit Types (token : string) (rsa_key : gmap string string).

Local Abbreviation decorated :=
  (requires_auth_token (Response := Response) AUTH0_DOMAIN API_AUDIENCE).
Local Abbreviation url := (jwks_url AUTH0_DOMAIN).
Local Abbreviation decode := (decode_call AUTH0_DOMAIN API_AUDIENCE).
Local Abbreviation reaches := (reaches_verification AUTH0_DOMAIN).

(** X5.  A header that is not empty and made of whitespace only has no
    part: [parts[0]] raises [IndexError], and both callers of the
    extraction, the token decorator and the scope check, raise it in turn
    without making any call. *)
Theorem whitespace_header_index_error h a required_scope :
  a <> "" -> PyStr.allspace a = true ->
  get_token_auth_header (Some a) = Raise IndexError /\
  run h (decorated (Some a)) = ([], Raise IndexError) /\
  run h (requires_scope (Some a) required_scope) = ([], Raise IndexError).
Proof.
  intros Hne Hsp.
  pose proof (get_token_auth_header_spaces a Hne Hsp) as H.
  split; [exact H|]. split.
  - now rewrite run_decorated, H.
  - unfold requires_scope. now rewrite H.
Qed.

(** X6.  A request rejected at the header makes no call at all; any other
    request starts by fetching
    https://AUTH0_DOMAIN/.well-known/jwks.json, before the token is looked
    at. *)
Theorem key_set_fetch h auth :
  (forall e, get_token_auth_header auth = Raise e ->
             run h (decorated auth) = ([], Raise e)) /\
  (forall token, get_token_auth_header auth = Ok token ->
     exists calls,
       (run h (decorated auth)).1 =
       urlopen_read ("https://" +:+ AUTH0_DOMAIN +:+ "/.well-known/jwks.json")
         :: calls).
Proof.
  split.
  - intros e He. now rewrite run_decorated, He.
  - intros token Htok. rewrite run_decorated, Htok.
    unfold jwks_url. repeat case_match; cbn; eauto.
Qed.

(** X7.  The fetch, the parsing of the key set and the decoding of the
    token header happen outside the [try] statement: an exception of any of
    the three leaves the decorator unchanged and ends the run there. *)
Theorem library_failures_escape h auth token e :
  get_token_auth_header auth = Ok token ->
  (h (urlopen_read url) = Raise e ->
   run h (decorated auth) = ([urlopen_read url], Raise e)) /\
  (forall body : string,
      h (urlopen_read url) = Ok body -> h (json_loads body) = Raise e ->
      run h (decorated auth) = ([urlopen_read url; json_loads body], Raise e)) /\
  (forall (body : string) (jwks : gmap string (list (gmap string string))),
      h (urlopen_read url) = Ok body -> h (json_loads body) = Ok jwks ->
      h (jwt_get_unverified_header token) = Raise e ->
      run h (decorated auth) =
      ([urlopen_read url; json_loads body; jwt_get_unverified_header token],
       Raise e)).
Proof.
  intros Htok. repeat split.
  - intros Hurl. now rewrite run_decorated, Htok, Hurl.
  - intros body Hurl Hjson. now rewrite run_decorated, Htok, Hurl, Hjson.
  - intros body jwks Hurl Hjson Hhdr.
    now rewrite run_decorated, Htok, Hurl, Hjson, Hhdr.
Qed.

(** X8.  When verification succeeds the payload [jwt.decode] returned is
    stored as the current user as it is, then the view is called, and what
    the view returns or raises is the outcome. *)
Theorem verified_request h auth token rsa_key (payload : gmap string json) :
  reaches h auth token rsa_key ->
  h (decode token rsa_key) = Ok payload ->
  h (set_current_user payload) = Ok tt ->
  exists body,
    run h (decorated auth) =
    ([urlopen_read url; json_loads body; jwt_get_unverified_header token;
      decode token rsa_key; set_current_user payload; view],
     h view).
Proof.
  intros Hr Hdec Hset. destruct (run_decorated_reaches AUTH0_DOMAIN API_AUDIENCE _ _ _ _ Hr)
    as [body ->].
  exists body. cbn. now rewrite Hdec, Hset.
Qed.

(** X10.  When [jwt.decode] raises, the run ends with that call: the
    current user is not set and the view is not called.  If what it raised
    is an [Exception], what leaves the decorator is an [AuthError] with
    status 401. *)
Theorem decode_failure_stops h auth token rsa_key e :
  reaches h auth token rsa_key ->
  h (decode token rsa_key) = Raise e ->
  (exists body,
      run h (decorated auth) =
      ([urlopen_read url; json_loads body; jwt_get_unverified_header token;
        decode token rsa_key], Raise (decode_except e))) /\
  (is_Exception e = true ->
   exists code description,
     decode_except e = AuthError (error_dict code description) 401).
Proof.
  intros Hr Hdec. split.
  - destruct (run_decorated_reaches AUTH0_DOMAIN API_AUDIENCE _ _ _ _ Hr)
    as [body ->].
    exists body. cbn. now rewrite Hdec.
  - intros He. destruct e; try discriminate He; cbn; eauto.
Qed.

(** *** The key loop *)

Lemma select_key_app keys1 keys2 (unverified_header : gmap string string) rsa_key :
  select_key (keys1 ++ keys2) unverified_header rsa_key =
  select_key keys1 unverified_header rsa_key
    ≫= select_key keys2 unverified_header.
Proof.
  revert rsa_key. induction keys1 as [|key keys1 IH]; intros rsa_key;
    [reflexivity|].
  simpl. unfold dict_getitem.
  repeat (case_match; cbn; try reflexivity); apply IH.
Qed.

Lemma select_key_complete keys (unverified_header : gmap string string) kid rsa_key :
  unverified_header !! "kid" = Some kid ->
  Forall jwk_complete keys ->
  exists rsa_key', select_key keys unverified_header rsa_key = Ok rsa_key'.
Proof.
  intros Hkid Hkeys. revert rsa_key.
  induction Hkeys as [|key keys Hc _ IH]; intros rsa_key; [eauto|].
  destruct Hc as ([kty Hkty] & [k Hk] & [use Huse] & [n Hn] & [e He]).
  simpl. unfold dict_getitem. rewrite Hk, Hkid, Hkty, Huse, Hn, He. simpl.
  destruct (String.eqb k kid); apply IH.
Qed.

(** X11.  The loop has no [break]: of several published keys with the
    identifier the token names, the last one is the key used. *)
Theorem last_matching_key_wins keys1 keys2 (key unverified_header : gmap string string)
        kid kty use n e rsa_key :
  unverified_header !! "kid" = Some kid ->
  Forall jwk_complete keys1 ->
  key !! "kid" = Some kid -> key !! "kty" = Some kty -> key !! "use" = Some use ->
  key !! "n" = Some n -> key !! "e" = Some e ->
  Forall (fun key' : gmap string string =>
            exists k, key' !! "kid" = Some k /\ k <> kid) keys2 ->
  select_key (keys1 ++ key :: keys2) unverified_header rsa_key =
  Ok {[ "kty" := kty; "kid" := kid; "use" := use; "n" := n; "e" := e ]}.
Proof.
  intros Hkid Hkeys1 Hk Hkty Huse Hn He Hkeys2.
  rewrite select_key_app.
  destruct (select_key_complete keys1 _ _ rsa_key Hkid Hkeys1) as [acc ->].
  cbn [mbind result_bind]. simpl. unfold dict_getitem.
  rewrite Hk, Hkid, Hkty, Huse, Hn, He. simpl.
  rewrite String.eqb_refl.
  now apply select_key_no_match with (kid := kid).
Qed.

(** What the loop keeps true of [rsa_key]: it is empty, or it has the five
    members and the identifier the token names. *)
Lemma select_key_invariant keys (unverified_header acc rsa_key : gmap string string) :
  acc = ∅ \/ (dom acc = ({[ "kty"; "kid"; "use"; "n"; "e" ]} : gset string)
               /\ acc !! "kid" = unverified_header !! "kid") ->
  select_key keys unverified_header acc = Ok rsa_key ->
  rsa_key = ∅ \/ (dom rsa_key = ({[ "kty"; "kid"; "use"; "n"; "e" ]} : gset string)
                   /\ rsa_key !! "kid" = unverified_header !! "kid").
Proof.
  revert acc. induction keys as [|key keys IH]; intros acc Hacc; simpl.
  - now intros [= <-].
  - unfold dict_getitem.
    destruct (key !! "kid") as [k|] eqn:Hk; [|discriminate]. cbn.
    destruct (unverified_header !! "kid") as [hk|] eqn:Hhk; [|discriminate]. cbn.
    destruct (String.eqb k hk) eqn:Heq; [|now apply IH].
    apply String.eqb_eq in Heq as ->.
    destruct (key !! "kty"); [|discriminate]. cbn.
    destruct (key !! "use"); [|discriminate]. cbn.
    destruct (key !! "n"); [|discriminate]. cbn.
    destruct (key !! "e"); [|discriminate]. cbn.
    apply IH. right. split.
    + rewrite !dom_insert_L, dom_singleton_L. set_solver.
    + rewrite lookup_insert_ne by discriminate. now rewrite lookup_insert_eq.
Qed.

(** X12.  A non-empty [rsa_key] has exactly the five members kty, kid, use,
    n and e (any other member of the published key, such as alg, is
    dropped), and its kid is the one the token names. *)
Theorem rsa_key_members keys (unverified_header rsa_key : gmap string string) :
  select_key keys unverified_header ∅ = Ok rsa_key ->
  rsa_key <> ∅ ->
  dom rsa_key = ({[ "kty"; "kid"; "use"; "n"; "e" ]} : gset string) /\
  rsa_key !! "kid" = unverified_header !! "kid".
Proof.
  intros Hsel Hne.
  destruct (select_key_invariant keys unverified_header ∅ rsa_key
              (or_introl eq_refl) Hsel); [congruence | assumption].
Qed.

(** X13.  A token header without kid: with an empty key set the loop body
    never runs and the outcome is the "Unable to find appropriate key"
    error; with a first published key that has a kid, the subscript
    [unverified_header["kid"]] raises [KeyError], which leaves the
    decorator as it is, and no [jwt.decode] call is made. *)
Theorem token_without_kid h auth token (body : string)
        (jwks : gmap string (list (gmap string string)))
        (unverified_header : gmap string string) keys :
  get_token_auth_header auth = Ok token ->
  h (urlopen_read url) = Ok body ->
  h (json_loads body) = Ok jwks ->
  h (jwt_get_unverified_header token) = Ok unverified_header ->
  jwks !! "keys" = Some keys ->
  unverified_header !! "kid" = None ->
  (keys = [] ->
   (run h (decorated auth)).2 =
   Raise (AuthError (error_dict "invalid_header"
                                "Unable to find appropriate key") 401)) /\
  (forall (key : gmap string string) keys' k,
      keys = key :: keys' -> key !! "kid" = Some k ->
      run h (decorated auth) =
      ([urlopen_read url; json_loads body; jwt_get_unverified_header token],
       Raise (KeyError "kid"))).
Proof.
  intros Htok Hurl Hjson Hhdr Hkeys Hkid. split.
  - intros ->. rewrite run_decorated, Htok, Hurl, Hjson, Hhdr.
    unfold dict_getitem. now rewrite Hkeys.
  - intros key keys' k -> Hk. rewrite run_decorated, Htok, Hurl, Hjson, Hhdr.
    assert (dict_getitem jwks "keys"
              ≫= (fun keys => select_key keys unverified_header ∅)
            = Raise (KeyError "kid")) as ->; [|reflexivity].
    unfold dict_getitem at 1. rewrite Hkeys. cbn [mbind result_bind].
    simpl. unfold dict_getitem. now rewrite Hk, Hkid.
Qed.

(** X14.  When a complete key set publishes a key with the identifier the
    token names, [jwt.decode] is called on the token with a key of that
    identifier, the algorithms ["RS256"], the configured audience, and the
    configured domain followed by a slash as issuer. *)
Theorem published_key_is_used h auth token (body : string)
        (jwks : gmap string (list (gmap string string)))
        (unverified_header : gmap string string) keys kid
        (key : gmap string string) :
  get_token_auth_header auth = Ok token ->
  h (urlopen_read url) = Ok body ->
  h (json_loads body) = Ok jwks ->
  h (jwt_get_unverified_header token) = Ok unverified_header ->
  jwks !! "keys" = Some keys ->
  unverified_header !! "kid" = Some kid ->
  Forall jwk_complete keys ->
  key ∈ keys -> key !! "kid" = Some kid ->
  exists rsa_key,
    rsa_key !! "kid" = Some kid /\
    jwt_decode token rsa_key ["RS256"] API_AUDIENCE (AUTH0_DOMAIN +:+ "/")
      ∈ (run h (decorated auth)).1.
Proof.
  intros Htok Hurl Hjson Hhdr Hkeys Hkid Hcomplete Hin Hk.
  destruct (matched_key_reaches AUTH0_DOMAIN h auth token body jwks
              unverified_header keys kid key) as [rsa_key Hr]; try assumption.
  exists rsa_key. split; [|now apply verification_invoked].
  destruct Hr as (body' & jwks' & hdr' & keys' & _ & Hurl' & Hjson' & Hhdr'
                  & Hkeys' & Hsel & Hne).
  rewrite Hurl in Hurl'. injection Hurl' as <-.
  rewrite Hjson in Hjson'. injection Hjson' as <-.
  rewrite Hhdr in Hhdr'. injection Hhdr' as <-.
  destruct (select_key_invariant keys' unverified_header ∅ rsa_key
              (or_introl eq_refl) Hsel) as [? | [_ ->]]; [congruence | exact Hkid].
Qed.

End MoreVerification.

(* ===================================================================== *)
(** ** More on the scope check                                            *)
(* ===================================================================== *)

Section MoreScope.

Context {Response : Type}.
Implicit Types (h : handler Response) (auth : option string).

Lemma scope_loop_calls h token_scopes required_scope :
  Forall claims_or_print (run h (scope_loop token_scopes required_scope)).1.
Proof.
  induction token_scopes as [|token_scope rest IH]; [constructor|].
  cbn. destruct (h (print token_scope)) as [[]|e]; cbn.
  2:{ repeat (constructor; cbn). }
  destruct (bool_decide (token_scope = required_scope)); cbn.
  { repeat (constructor; cbn). }
  destruct (run h (scope_loop rest required_scope)) as [t r]. cbn in *.
  constructor; [exact I | assumption].
Qed.

(** X15.  Whatever the request and the answers of the libraries,
    [requires_scope] only decodes the claims without verification and
    prints: it never fetches the key set and never calls [jwt.decode]. *)
Theorem scope_check_never_verifies h auth required_scope :
  Forall claims_or_print (run h (requires_scope auth required_scope)).1.
Proof.
  unfold requires_scope.
  destruct (get_token_auth_header auth) as [token|e]; [|constructor].
  cbn. destruct (h (jwt_get_unverified_claims token)) as [claims|e]; cbn.
  2:{ repeat (constructor; cbn). }
  unfold dict_getitem.
  match goal with
  | |- context [from_option _ _ ?o] => destruct o as [v|]
  end; cbn.
  2:{ repeat (constructor; cbn). }
  destruct (json_truthy v); cbn.
  2:{ repeat (constructor; cbn). }
  destruct v as [| | |s| |]; cbn; try (repeat (constructor; cbn); fail).
  pose proof (scope_loop_calls h (usplit s) required_scope) as Hloop.
  destruct (run h (scope_loop (usplit s) required_scope)) as [t r].
  cbn in *. constructor; [exact I | assumption].
Qed.

(** X16.  A scope claim that is not a string: a falsy one (null, false, 0,
    an empty list or object) counts as no scope and the answer is [False];
    a truthy one has no [split] and [requires_scope] raises
    [AttributeError]. *)
Theorem non_string_scope h auth token required_scope
        (unverified_claims : gmap string json) v :
  get_token_auth_header auth = Ok token ->
  h (jwt_get_unverified_claims token) = Ok unverified_claims ->
  unverified_claims !! "scope" = Some v ->
  (forall s, v <> JStr s) ->
  (run h (requires_scope auth required_scope)).2 =
  if json_truthy v then Raise AttributeError else Ok false.
Proof.
  intros Htok Hclaims Hscope Hv. unfold requires_scope.
  rewrite Htok. cbn. rewrite Hclaims. cbn. rewrite Hscope. cbn.
  destruct (json_truthy v) eqn:Ht; [|reflexivity].
  unfold dict_getitem. rewrite Hscope. cbn.
  destruct v as [| | |s| |]; try reflexivity. now destruct (Hv s).
Qed.

Lemma scope_loop_prints_all h token_scopes required_scope :
  (forall s, h (print s) = Ok tt) ->
  required_scope ∉ token_scopes ->
  (run h (scope_loop token_scopes required_scope)).1 = print <$> token_scopes.
Proof.
  intros Hprint. induction token_scopes as [|token_scope rest IH]; intros Hnot;
    [reflexivity|].
  apply not_elem_of_cons in Hnot as [Hne Hnot].
  cbn. rewrite Hprint. cbn.
  rewrite bool_decide_eq_false_2 by congruence.
  specialize (IH Hnot).
  destruct (run h (scope_loop rest required_scope)) as [t r]. cbn in *.
  now rewrite IH.
Qed.

Lemma scope_loop_prints_until h before after required_scope :
  (forall s, h (print s) = Ok tt) ->
  required_scope ∉ before ->
  (run h (scope_loop (before ++ required_scope :: after) required_scope)).1 =
  print <$> (before ++ [required_scope]).
Proof.
  intros Hprint. induction before as [|token_scope rest IH]; intros Hnot.
  - cbn. rewrite Hprint. cbn. now rewrite bool_decide_eq_true_2.
  - apply not_elem_of_cons in Hnot as [Hne Hnot].
    cbn. rewrite Hprint. cbn.
    rewrite bool_decide_eq_false_2 by congruence.
    specialize (IH Hnot).
    destruct (run h (scope_loop (rest ++ required_scope :: after) required_scope))
      as [t r]. cbn in *. now rewrite IH.
Qed.

(** X17.  The scopes of the token go to standard output: when the
    required scope is not granted every scope of the token is printed, in
    order; when it is granted the scopes are printed up to and including
    its first occurrence, and the later ones are not looked at. *)
Theorem printed_scopes h auth token required_scope
        (unverified_claims : gmap string json) scope :
  get_token_auth_header auth = Ok token ->
  h (jwt_get_unverified_claims token) = Ok unverified_claims ->
  unverified_claims !! "scope" = Some (JStr scope) ->
  (forall s, h (print s) = Ok tt) ->
  (required_scope ∉ usplit scope ->
   (run h (requires_scope auth required_scope)).1 =
   jwt_get_unverified_claims token :: (print <$> usplit scope)) /\
  (forall before after,
      usplit scope = before ++ required_scope :: after ->
      required_scope ∉ before ->
      (run h (requires_scope auth required_scope)).1 =
      jwt_get_unverified_claims token :: (print <$> (before ++ [required_scope]))).
Proof.
  intros Htok Hclaims Hscope Hprint.
  assert ((run h (requires_scope auth required_scope)).1 =
          jwt_get_unverified_claims token ::
            (run h (scope_loop (usplit scope) required_scope)).1) as ->.
  { unfold requires_scope. rewrite Htok. cbn. rewrite Hclaims. cbn.
    rewrite Hscope. cbn. destruct scope as [|c scope]; [reflexivity|].
    cbn [utruthy]. unfold dict_getitem. rewrite Hscope. cbn.
    now destruct (run h (scope_loop (usplit (c :: scope)) required_scope)). }
  split.
  - intros Hnot. now rewrite scope_loop_prints_all.
  - intros before after -> Hnot. now rewrite scope_loop_prints_until.
Qed.

End MoreScope.

(* ===================================================================== *)
(** ** The session routes, request after request                          *)
(* ===================================================================== *)

Section SessionFacts.

Context {R : Type}.
Variable CLIENT_ID : string.
Implicit Types (h : whandler R) (s : gmap string (gmap string json)).

(** What the session gate answers when it rejects. *)
Local Abbreviation rejection :=
  (JsonResponse (R := R)
     {[ "success" := JBool false; "error" := JStr "Authentication failure" ]} 200).

Ltac web_simpl :=
  unfold serve, requires_auth, callback_handling, logout, mbind, web_bind,
    session_contains, session_setitem, session_clear, web_ret, web_lift, ask;
  cbn.

(** The gate leaves the session as it is; it calls the wrapped function
    exactly when the session has a profile entry. *)
Lemma serve_requires_auth h s :
  serve h requires_auth s =
  if bool_decide (is_Some (s !! "profile")) then ([call_func], (s, h call_func))
  else ([], (s, Ok rejection)).
Proof.
  web_simpl.
  destruct (bool_decide (is_Some (s !! "profile"))); cbn; [|reflexivity].
  now destruct (h call_func).
Qed.

(** The callback up to the call of [add_user]. *)
Lemma serve_callback h s (userinfo : gmap string json) user_id name picture :
  h auth0_authorize_access_token = Ok tt ->
  h (auth0_get_json "userinfo") = Ok userinfo ->
  userinfo !! "sub" = Some user_id ->
  userinfo !! "name" = Some name ->
  userinfo !! "picture" = Some picture ->
  let s' := logged_in_as userinfo user_id name picture s in
  let pre := [auth0_authorize_access_token; auth0_get_json "userinfo";
              add_user name picture user_id] in
  serve h callback_handling s =
  match h (add_user name picture user_id) with
  | Raise e => (pre, (s', Raise e))
  | Ok res =>
      if json_truthy res then
        (pre, (s', Ok (jsonify {[ "success" := JBool false; "error" := res ]})))
      else
        match h (url_for "users.list_all_users" false) with
        | Raise e => (pre ++ [url_for "users.list_all_users" false], (s', Raise e))
        | Ok location =>
            (pre ++ [url_for "users.list_all_users" false],
             (s', Ok (Redirect location)))
        end
  end.
Proof.
  intros Hauth Hget Hsub Hname Hpic. web_simpl.
  rewrite Hauth. cbn. rewrite Hget. cbn.
  unfold dict_getitem. rewrite Hsub, Hname, Hpic. cbn.
  destruct (h (add_user name picture user_id)) as [res|e]; cbn; [|reflexivity].
  destruct (json_truthy res); cbn; [reflexivity|].
  now destruct (h (url_for "users.list_all_users" false)).
Qed.

(** X18.  Once the provider has described the user with sub, name and
    picture, the callback leaves the session logged in (the payload under
    jwt_payload, the three fields under profile), whatever [add_user] and
    [url_for] then return or raise; the session gate lets the next request
    of that session through. *)
Theorem callback_opens_gate h s (userinfo : gmap string json) user_id name picture :
  h auth0_authorize_access_token = Ok tt ->
  h (auth0_get_json "userinfo") = Ok userinfo ->
  userinfo !! "sub" = Some user_id ->
  userinfo !! "name" = Some name ->
  userinfo !! "picture" = Some picture ->
  (serve h callback_handling s).2.1 =
    logged_in_as userinfo user_id name picture s /\
  serve h requires_auth (serve h callback_handling s).2.1 =
    ([call_func], ((serve h callback_handling s).2.1, h call_func)).
Proof.
  intros Hauth Hget Hsub Hname Hpic.
  assert ((serve h callback_handling s).2.1 =
          logged_in_as userinfo user_id name picture s) as ->.
  { rewrite (serve_callback h s userinfo user_id name picture) by assumption.
    repeat case_match; reflexivity. }
  split; [reflexivity|].
  rewrite serve_requires_auth. unfold logged_in_as.
  rewrite lookup_insert_eq. rewrite bool_decide_eq_true_2 by eauto. reflexivity.
Qed.

(** X19.  What the callback answers: when [add_user] returns something
    truthy, a JSON body with success false and that error, with status
    200, the session being logged in all the same; when it returns
    something falsy, a redirect to the location of the user list. *)
Theorem callback_response h s (userinfo : gmap string json) user_id name picture res :
  h auth0_authorize_access_token = Ok tt ->
  h (auth0_get_json "userinfo") = Ok userinfo ->
  userinfo !! "sub" = Some user_id ->
  userinfo !! "name" = Some name ->
  userinfo !! "picture" = Some picture ->
  h (add_user name picture user_id) = Ok res ->
  (json_truthy res = true ->
   serve h callback_handling s =
   ([auth0_authorize_access_token; auth0_get_json "userinfo";
     add_user name picture user_id],
    (logged_in_as userinfo user_id name picture s,
     Ok (JsonResponse {[ "success" := JBool false; "error" := res ]} 200)))) /\
  (forall location,
      json_truthy res = false ->
      h (url_for "users.list_all_users" false) = Ok location ->
      serve h callback_handling s =
      ([auth0_authorize_access_token; auth0_get_json "userinfo";
        add_user name picture user_id; url_for "users.list_all_users" false],
       (logged_in_as userinfo user_id name picture s, Ok (Redirect location)))).
Proof.
  intros Hauth Hget Hsub Hname Hpic Hadd.
  rewrite (serve_callback h s userinfo user_id name picture) by assumption.
  rewrite Hadd. split.
  - intros ->. reflexivity.
  - intros location -> ->. reflexivity.
Qed.

(** X20.  A description of the user that lacks sub, name or picture makes
    the callback raise [KeyError] for the first of them that is missing
    (in this order); [add_user] is not called, the payload is already in
    the session under jwt_payload but no profile is written: a session
    that was not logged in still is not. *)
Theorem callback_missing_field h s (userinfo : gmap string json) field :
  h auth0_authorize_access_token = Ok tt ->
  h (auth0_get_json "userinfo") = Ok userinfo ->
  (userinfo !! "sub" = None /\ field = "sub") \/
  (is_Some (userinfo !! "sub") /\ userinfo !! "name" = None /\ field = "name") \/
  (is_Some (userinfo !! "sub") /\ is_Some (userinfo !! "name") /\
   userinfo !! "picture" = None /\ field = "picture") ->
  serve h callback_handling s =
    ([auth0_authorize_access_token; auth0_get_json "userinfo"],
     (<["jwt_payload" := userinfo]> s, Raise (KeyError field))) /\
  (s !! "profile" = None ->
   serve h requires_auth (<["jwt_payload" := userinfo]> s) =
   ([], (<["jwt_payload" := userinfo]> s, Ok rejection))).
Proof.
  intros Hauth Hget Hmissing. split.
  - web_simpl. rewrite Hauth. cbn. rewrite Hget. cbn.
    unfold dict_getitem.
    destruct Hmissing as [[Hsub ->] | [([x Hsub] & Hname & ->)
                                      | ([x Hsub] & [y Hname] & Hpic & ->)]].
    + now rewrite Hsub.
    + now rewrite Hsub, Hname.
    + now rewrite Hsub, Hname, Hpic.
  - intros Hprofile. rewrite serve_requires_auth.
    rewrite lookup_insert_ne by discriminate.
    rewrite bool_decide_eq_false_2; [reflexivity|].
    rewrite Hprofile. now intros [x Hx].
Qed.

(** X21.  A token exchange or a user lookup that fails ends the callback
    there: the exception leaves the callback as it is, no response is
    returned, and no further call is made (after a failed exchange no user
    lookup, and in both cases no [add_user]). *)
Theorem failed_exchange_stops_callback h s e :
  (h auth0_authorize_access_token = Raise e ->
   (serve h callback_handling s).1 = [auth0_authorize_access_token] /\
   (serve h callback_handling s).2.2 = Raise e) /\
  (h auth0_authorize_access_token = Ok tt ->
   h (auth0_get_json "userinfo") = Raise e ->
   (serve h callback_handling s).1 =
     [auth0_authorize_access_token; auth0_get_json "userinfo"] /\
   (serve h callback_handling s).2.2 = Raise e).
Proof.
  split.
  - intros Hauth. web_simpl. now rewrite Hauth.
  - intros Hauth Hget. web_simpl. rewrite Hauth. cbn. now rewrite Hget.
Qed.

(** X22.  Logging out empties the session before anything else is done:
    whatever [url_for] and [urlencode] return or raise, the session left is
    empty, and the session gate rejects the next request without calling
    the wrapped function. *)
Theorem logout_closes_gate h s :
  (serve h (logout CLIENT_ID) s).2.1 = ∅ /\
  serve h requires_auth (serve h (logout CLIENT_ID) s).2.1 =
    ([], (∅, Ok rejection)).
Proof.
  assert ((serve h (logout CLIENT_ID) s).2.1 = ∅) as ->.
  { web_simpl.
    destruct (h (url_for "auth.api_public" true)) as [u|e]; cbn; [|reflexivity].
    now destruct (h (urlencode _)). }
  split; [reflexivity|]. now rewrite serve_requires_auth.
Qed.

(** X23.  Rendering the errors of the header extraction: every [AuthError]
    that [get_token_auth_header] raises is turned by [handle_auth_error]
    into a response with status 401 whose body has exactly the members
    code and description, the code being authorization_header_missing or
    invalid_header. *)
Theorem header_error_rendering auth error status_code :
  get_token_auth_header auth = Raise (AuthError error status_code) ->
  exists body,
    handle_auth_error (R := R) error status_code = JsonResponse body 401 /\
    dom body = ({[ "code"; "description" ]} : gset string) /\
    (body !! "code" = Some (JStr "authorization_header_missing") \/
     body !! "code" = Some (JStr "invalid_header")).
Proof.
  intros H.
  assert (status_code = 401 /\
          exists code description,
            error = error_dict code description /\
            (code = "authorization_header_missing" \/ code = "invalid_header"))
    as (-> & code & description & -> & Hcode).
  { unfold get_token_auth_header in H.
    destruct (not_auth auth); [injection H as <- <-; eauto 10|].
    destruct (PyStr.split (default "" auth)) as [|scheme rest]; cbn in H;
      [discriminate H|].
    destruct (String.eqb (PyStr.lower scheme) "bearer"); cbn in H;
      [|injection H as <- <-; eauto 10].
    destruct rest as [|token [|x rest]]; cbn in H; try discriminate H;
      injection H as <- <-; eauto 10. }
  eexists. split; [reflexivity|]. unfold error_dict. split.
  - rewrite dom_fmap_L, dom_insert_L, dom_singleton_L. set_solver.
  - rewrite lookup_fmap, lookup_insert_eq. cbn. destruct Hcode as [-> | ->]; auto.
Qed.

End SessionFacts.

(* ===================================================================== *)
(** ** The further theorems at sample requests                            *)
(* ===================================================================== *)

(** The header of one tab and one space. *)
Lemma whitespace_header_index_error_witness :
  get_token_auth_header (Some (String "009" " ")) = Raise IndexError /\
  run (sample_handler tt (Ok sample_header) (Ok ∅) (Ok ∅))
      (requires_auth_token "example.auth0.com" "https://api.example.com"
                           (Some (String "009" " "))) = ([], Raise IndexError) /\
  run (sample_handler tt (Ok sample_header) (Ok ∅) (Ok ∅))
      (requires_scope (Some (String "009" " ")) "read:messages") =
    ([], Raise IndexError).
Proof.
  apply (whitespace_header_index_error "example.auth0.com"
           "https://api.example.com"
           (sample_handler tt (Ok sample_header) (Ok ∅) (Ok ∅))
           (String "009" " ") "read:messages"); [discriminate | reflexivity].
Defined.

(** A request without header; a request with a token. *)
Lemma key_set_fetch_witness :
  run (sample_handler tt (Ok sample_header) (Ok ∅) (Ok ∅))
      (requires_auth_token "example.auth0.com" "https://api.example.com" None) =
    ([], Raise (AuthError (error_dict "authorization_header_missing"
                                      "Authorization header is expected") 401)) /\
  exists calls,
    (run (sample_handler tt (Ok sample_header) (Ok ∅) (Ok ∅))
         (requires_auth_token "example.auth0.com" "https://api.example.com"
                              (Some "Bearer abc.def.ghi"))).1 =
    urlopen_read ("https://" +:+ "example.auth0.com" +:+ "/.well-known/jwks.json")
      :: calls.
Proof.
  split.
  - apply (proj1 (key_set_fetch "example.auth0.com" "https://api.example.com"
                    (sample_handler tt (Ok sample_header) (Ok ∅) (Ok ∅)) None)).
    reflexivity.
  - apply (proj2 (key_set_fetch "example.auth0.com" "https://api.example.com"
                    (sample_handler tt (Ok sample_header) (Ok ∅) (Ok ∅))
                    (Some "Bearer abc.def.ghi")) "abc.def.ghi").
    reflexivity.
Defined.

(** A token whose header cannot be decoded. *)
Lemma library_failures_escape_witness :
  run (sample_handler tt (Raise JWTError) (Ok ∅) (Ok ∅))
      (requires_auth_token "example.auth0.com" "https://api.example.com"
                           (Some "Bearer abc")) =
  ([urlopen_read (jwks_url "example.auth0.com"); json_loads "{...}";
    jwt_get_unverified_header "abc"], Raise JWTError).
Proof.
  apply (proj2 (proj2 (library_failures_escape
           "example.auth0.com" "https://api.example.com"
           (sample_handler tt (Raise JWTError) (Ok ∅) (Ok ∅))
           (Some "Bearer abc") "abc" JWTError eq_refl))
           "{...}" {[ "keys" := [sample_jwk] ]}); reflexivity.
Defined.

(** A verified token with one claim. *)
Lemma verified_request_witness :
  exists body,
    run (sample_handler tt (Ok sample_header) (Ok {[ "sub" := JStr "ada" ]}) (Ok ∅))
        (requires_auth_token "example.auth0.com" "https://api.example.com"
                             (Some "Bearer abc.def.ghi")) =
    ([urlopen_read (jwks_url "example.auth0.com"); json_loads body;
      jwt_get_unverified_header "abc.def.ghi";
      decode_call "example.auth0.com" "https://api.example.com"
                  "abc.def.ghi" sample_rsa_key;
      set_current_user {[ "sub" := JStr "ada" ]}; view],
     sample_handler tt (Ok sample_header) (Ok {[ "sub" := JStr "ada" ]}) (Ok ∅) view).
Proof.
  apply (verified_request "example.auth0.com" "https://api.example.com"
           (sample_handler tt (Ok sample_header) (Ok {[ "sub" := JStr "ada" ]}) (Ok ∅))
           (Some "Bearer abc.def.ghi") "abc.def.ghi" sample_rsa_key
           {[ "sub" := JStr "ada" ]}); [sample_reaches | reflexivity | reflexivity].
Defined.

Lemma view_only_after_verification_witness :
  exists token rsa_key payload,
    reaches_verification "example.auth0.com"
      (sample_handler tt (Ok sample_header) (Ok {[ "sub" := JStr "ada" ]}) (Ok ∅))
      (Some "Bearer abc.def.ghi") token rsa_key /\
    sample_handler tt (Ok sample_header) (Ok {[ "sub" := JStr "ada" ]}) (Ok ∅)
      (decode_call "example.auth0.com" "https://api.example.com" token rsa_key)
    = Ok payload /\
    sample_handler tt (Ok sample_header) (Ok {[ "sub" := JStr "ada" ]}) (Ok ∅)
      (set_current_user payload) = Ok tt /\
    sample_handler tt (Ok sample_header) (Ok {[ "sub" := JStr "ada" ]}) (Ok ∅) view
    = Ok tt.
Proof.
  apply (view_only_after_verification "example.auth0.com" "https://api.example.com"
           (sample_handler tt (Ok sample_header) (Ok {[ "sub" := JStr "ada" ]}) (Ok ∅))
           (Some "Bearer abc.def.ghi") tt).
  by_vm.
Defined.

(** A signature python-jose rejects. *)
Lemma decode_failure_stops_witness :
  (exists body,
      run (sample_handler tt (Ok sample_header) (Raise JWTError) (Ok ∅))
          (requires_auth_token "example.auth0.com" "https://api.example.com"
                               (Some "Bearer abc.def.ghi")) =
      ([urlopen_read (jwks_url "example.auth0.com"); json_loads body;
        jwt_get_unverified_header "abc.def.ghi";
        decode_call "example.auth0.com" "https://api.example.com"
                    "abc.def.ghi" sample_rsa_key],
       Raise (decode_except JWTError))) /\
  (is_Exception JWTError = true ->
   exists code description,
     decode_except JWTError = AuthError (error_dict code description) 401).
Proof.
  apply (decode_failure_stops "example.auth0.com" "https://api.example.com"
           (sample_handler tt (Ok sample_header) (Raise JWTError) (Ok ∅))
           (Some "Bearer abc.def.ghi") "abc.def.ghi" sample_rsa_key JWTError);
    [sample_reaches | reflexivity].
Defined.

(** Two keys published as k1, then one as k2: the second k1 is used. *)
Lemma last_matching_key_wins_witness :
  select_key ([sample_jwk] ++ sample_jwk_rotated :: [sample_jwk_other])
             sample_header ∅ =
  Ok {[ "kty" := "RSA"; "kid" := "k1"; "use" := "sig";
        "n" := "0vx7agoebGcQSuuPiLJXZptN9nndrQmbXEps2aiAFbWhM78LhWx4cbbfAAt";
        "e" := "AQAB" ]}.
Proof.
  apply (last_matching_key_wins [sample_jwk] [sample_jwk_other]
           sample_jwk_rotated sample_header "k1" "RSA" "sig"
           "0vx7agoebGcQSuuPiLJXZptN9nndrQmbXEps2aiAFbWhM78LhWx4cbbfAAt" "AQAB" ∅);
    try by_vm.
  - constructor; [|constructor].
    repeat apply conj; eexists; vm_compute; reflexivity.
  - constructor; [|constructor].
    exists "k2". split; [by_vm | discriminate].
Defined.

Lemma rsa_key_members_witness :
  dom sample_rsa_key = ({[ "kty"; "kid"; "use"; "n"; "e" ]} : gset string) /\
  sample_rsa_key !! "kid" = sample_header !! "kid".
Proof.
  apply (rsa_key_members [sample_jwk] sample_header sample_rsa_key);
    [by_vm | done].
Defined.

(** A token header with an algorithm and nothing else. *)
Lemma token_without_kid_witness :
  run (sample_handler tt (Ok {[ "alg" := "RS256" ]}) (Ok ∅) (Ok ∅))
      (requires_auth_token "example.auth0.com" "https://api.example.com"
                           (Some "Bearer abc.def.ghi")) =
  ([urlopen_read (jwks_url "example.auth0.com"); json_loads "{...}";
    jwt_get_unverified_header "abc.def.ghi"], Raise (KeyError "kid")).
Proof.
  refine (proj2 (token_without_kid "example.auth0.com" "https://api.example.com"
            (sample_handler tt (Ok {[ "alg" := "RS256" ]}) (Ok ∅) (Ok ∅))
            (Some "Bearer abc.def.ghi") "abc.def.ghi" "{...}"
            {[ "keys" := [sample_jwk] ]} {[ "alg" := "RS256" ]} [sample_jwk]
            _ _ _ _ _ _)
            sample_jwk [] "k1" _ _); by_vm.
Defined.

Lemma published_key_is_used_witness :
  exists rsa_key : gmap string string,
    rsa_key !! "kid" = Some "k1" /\
    jwt_decode "abc.def.ghi" rsa_key ["RS256"] "https://api.example.com"
               ("example.auth0.com" +:+ "/")
      ∈ (run (sample_handler tt (Ok sample_header) (Ok ∅) (Ok ∅))
             (requires_auth_token "example.auth0.com" "https://api.example.com"
                                  (Some "Bearer abc.def.ghi"))).1.
Proof.
  apply (published_key_is_used "example.auth0.com" "https://api.example.com"
           (sample_handler tt (Ok sample_header) (Ok ∅) (Ok ∅))
           (Some "Bearer abc.def.ghi") "abc.def.ghi" "{...}"
           {[ "keys" := [sample_jwk] ]} sample_header [sample_jwk] "k1" sample_jwk);
    try by_vm.
  - constructor; [|constructor].
    repeat apply conj; eexists; vm_compute; reflexivity.
  - apply list_elem_of_here.
Defined.

(** A scope claim that is a list of scopes. *)
Lemma non_string_scope_witness :
  (run (sample_handler tt (Ok sample_header) (Ok ∅)
                       (Ok {[ "scope" := JArr [JStr "read:messages"] ]}))
       (requires_scope (Some "Bearer abc.def.ghi") "read:messages")).2 =
  if json_truthy (JArr [JStr "read:messages"]) then Raise AttributeError
  else Ok false.
Proof.
  apply (non_string_scope
           (sample_handler tt (Ok sample_header) (Ok ∅)
                           (Ok {[ "scope" := JArr [JStr "read:messages"] ]}))
           (Some "Bearer abc.def.ghi") "abc.def.ghi" "read:messages"
           {[ "scope" := JArr [JStr "read:messages"] ]}
           (JArr [JStr "read:messages"])); try reflexivity.
  intros s. discriminate.
Defined.

(** Three scopes, the second one required: the third is not printed. *)
Lemma printed_scopes_witness :
  (run (sample_handler tt (Ok sample_header) (Ok ∅)
                       (Ok {[ "scope" := JStr "a b c" ]}))
       (requires_scope (Some "Bearer abc.def.ghi") "b")).1 =
  jwt_get_unverified_claims "abc.def.ghi"
    :: (print <$> ([of_latin1 "a"] ++ [of_latin1 "b"])).
Proof.
  refine (proj2 (printed_scopes
            (sample_handler tt (Ok sample_header) (Ok ∅)
                            (Ok {[ "scope" := JStr "a b c" ]}))
            (Some "Bearer abc.def.ghi") "abc.def.ghi" "b"
            {[ "scope" := JStr "a b c" ]} "a b c"
            _ _ _ (fun _ => eq_refl)) [of_latin1 "a"] [of_latin1 "c"] _ _);
    try by_vm.
  - intros H. apply elem_of_cons in H as [H|H]; [discriminate H|].
    now apply elem_of_nil in H.
Defined.

(** The provider describes Ada; [add_user] reports that she exists
    already. *)
Lemma callback_opens_gate_witness :
  (serve (sample_whandler (Ok sample_userinfo) (Ok (JStr "user exists")) tt)
         callback_handling ∅).2.1 =
    logged_in_as sample_userinfo (JStr "auth0|5bc") (JStr "Ada")
                 (JStr "https://example.com/ada.png") ∅ /\
  serve (sample_whandler (Ok sample_userinfo) (Ok (JStr "user exists")) tt)
        requires_auth
        (serve (sample_whandler (Ok sample_userinfo) (Ok (JStr "user exists")) tt)
               callback_handling ∅).2.1 =
    ([call_func],
     ((serve (sample_whandler (Ok sample_userinfo) (Ok (JStr "user exists")) tt)
             callback_handling ∅).2.1,
      sample_whandler (Ok sample_userinfo) (Ok (JStr "user exists")) tt call_func)).
Proof.
  apply (callback_opens_gate
           (sample_whandler (Ok sample_userinfo) (Ok (JStr "user exists")) tt) ∅
           sample_userinfo (JStr "auth0|5bc") (JStr "Ada")
           (JStr "https://example.com/ada.png")); by_vm.
Defined.

Lemma callback_response_witness :
  serve (sample_whandler (Ok sample_userinfo) (Ok (JStr "user exists")) tt)
        callback_handling ∅ =
    ([auth0_authorize_access_token; auth0_get_json "userinfo";
      add_user (JStr "Ada") (JStr "https://example.com/ada.png") (JStr "auth0|5bc")],
     (logged_in_as sample_userinfo (JStr "auth0|5bc") (JStr "Ada")
                   (JStr "https://example.com/ada.png") ∅,
      Ok (JsonResponse {[ "success" := JBool false;
                          "error" := JStr "user exists" ]} 200))) /\
  serve (sample_whandler (Ok sample_userinfo) (Ok JNull) tt)
        callback_handling ∅ =
    ([auth0_authorize_access_token; auth0_get_json "userinfo";
      add_user (JStr "Ada") (JStr "https://example.com/ada.png") (JStr "auth0|5bc");
      url_for "users.list_all_users" false],
     (logged_in_as sample_userinfo (JStr "auth0|5bc") (JStr "Ada")
                   (JStr "https://example.com/ada.png") ∅,
      Ok (Redirect "/users.list_all_users"))).
Proof.
  split.
  - refine (proj1 (callback_response
              (sample_whandler (Ok sample_userinfo) (Ok (JStr "user exists")) tt) ∅
              sample_userinfo (JStr "auth0|5bc") (JStr "Ada")
              (JStr "https://example.com/ada.png") (JStr "user exists")
              _ _ _ _ _ _) _); by_vm.
  - refine (proj2 (callback_response
              (sample_whandler (Ok sample_userinfo) (Ok JNull) tt) ∅
              sample_userinfo (JStr "auth0|5bc") (JStr "Ada")
              (JStr "https://example.com/ada.png") JNull
              _ _ _ _ _ _) "/users.list_all_users" _ _); by_vm.
Defined.

(** A description of the user without picture. *)
Lemma callback_missing_field_witness :
  serve (sample_whandler (Ok {[ "sub" := JStr "auth0|5bc"; "name" := JStr "Ada" ]})
                         (Ok JNull) tt)
        callback_handling ∅ =
    ([auth0_authorize_access_token; auth0_get_json "userinfo"],
     (<["jwt_payload" := {[ "sub" := JStr "auth0|5bc"; "name" := JStr "Ada" ]}]> ∅,
      Raise (KeyError "picture"))) /\
  ((∅ : gmap string (gmap string json)) !! "profile" = None ->
   serve (sample_whandler (Ok {[ "sub" := JStr "auth0|5bc"; "name" := JStr "Ada" ]})
                          (Ok JNull) tt)
         requires_auth
         (<["jwt_payload" := {[ "sub" := JStr "auth0|5bc"; "name" := JStr "Ada" ]}]> ∅) =
   ([], (<["jwt_payload" := {[ "sub" := JStr "auth0|5bc"; "name" := JStr "Ada" ]}]> ∅,
         Ok (JsonResponse {[ "success" := JBool false;
                             "error" := JStr "Authentication failure" ]} 200)))).
Proof.
  apply (callback_missing_field
           (sample_whandler (Ok {[ "sub" := JStr "auth0|5bc"; "name" := JStr "Ada" ]})
                            (Ok JNull) tt) ∅
           {[ "sub" := JStr "auth0|5bc"; "name" := JStr "Ada" ]} "picture");
    [by_vm | by_vm |].
  right; right. repeat apply conj; try by_vm; eexists; vm_compute; reflexivity.
Defined.

(** The provider refuses the user lookup. *)
Lemma failed_exchange_stops_callback_witness :
  (serve (sample_whandler (Raise (OtherError "OAuthError")) (Ok JNull) tt)
         callback_handling ∅).1 =
    [auth0_authorize_access_token; auth0_get_json "userinfo"] /\
  (serve (sample_whandler (Raise (OtherError "OAuthError")) (Ok JNull) tt)
         callback_handling ∅).2.2 = Raise (OtherError "OAuthError").
Proof.
  refine (proj2 (failed_exchange_stops_callback
            (sample_whandler (Raise (OtherError "OAuthError")) (Ok JNull) tt)
            ∅ (OtherError "OAuthError")) _ _); by_vm.
Defined.

(** The error of a header that names another scheme. *)
Lemma header_error_rendering_witness :
  exists body,
    handle_auth_error (R := unit)
      (error_dict "invalid_header" "Authorization header must start with Bearer")
      401 = JsonResponse body 401 /\
    dom body = ({[ "code"; "description" ]} : gset string) /\
    (body !! "code" = Some (JStr "authorization_header_missing") \/
     body !! "code" = Some (JStr "invalid_header")).
Proof.
  apply (header_error_rendering (Some "Basic xyz")). by_vm.
Defined.

(* ===================================================================== *)
(** ** Text of any code point                                             *)
(* ===================================================================== *)

Section TextFacts.

Lemma uisspace_latin1 (c : ascii) : uisspace (N_of_ascii c) = PyStr.isspace c.
Proof. destruct c as [[] [] [] [] [] [] [] []]; reflexivity. Qed.

Lemma ucons_word_latin1 (w : string) (ws : list string) :
  ucons_word (of_latin1 w) (of_latin1 <$> ws) = of_latin1 <$> PyStr.cons_word w ws.
Proof. destruct w; reflexivity. Qed.

Lemma usplit_aux_latin1 (s : string) :
  usplit_aux (of_latin1 s) =
  (of_latin1 (PyStr.split_aux s).1, of_latin1 <$> (PyStr.split_aux s).2).
Proof.
  induction s as [|c s IH]; [reflexivity|].
  cbn [of_latin1 usplit_aux PyStr.split_aux]. rewrite IH, uisspace_latin1.
  destruct (PyStr.split_aux s) as [w ws]. cbn [fst snd].
  destruct (PyStr.isspace c); cbn [fst snd]; [|reflexivity].
  now rewrite ucons_word_latin1.
Qed.

(** On a string of latin-1 characters the two splits agree. *)
Lemma usplit_of_latin1 (s : string) :
  usplit (of_latin1 s) = of_latin1 <$> PyStr.split s.
Proof.
  unfold usplit, PyStr.split. rewrite usplit_aux_latin1.
  destruct (PyStr.split_aux s) as [w ws]. apply ucons_word_latin1.
Qed.

(** Every part is a non-empty run of code points that are not spaces. *)
Lemma usplit_aux_words (s : ustring) :
  forallb (fun c => negb (uisspace c)) (usplit_aux s).1 = true /\
  Forall (fun w => w <> [] /\ forallb (fun c => negb (uisspace c)) w = true)
         (usplit_aux s).2.
Proof.
  induction s as [|c s [IHw IHws]]; [split; [reflexivity | constructor]|].
  cbn [usplit_aux]. destruct (usplit_aux s) as [w ws]; cbn [fst snd] in *.
  destruct (uisspace c) eqn:Hc; cbn [fst snd].
  - split; [reflexivity|]. destruct w; cbn [ucons_word]; [assumption|].
    constructor; [split; [discriminate | assumption] | assumption].
  - split; [|assumption]. cbn [forallb]. now rewrite Hc.
Qed.

Lemma usplit_words (s : ustring) :
  Forall (fun w => w <> [] /\ forallb (fun c => negb (uisspace c)) w = true)
         (usplit s).
Proof.
  unfold usplit. pose proof (usplit_aux_words s) as [Hw Hws].
  destruct (usplit_aux s) as [w ws]; cbn [fst snd] in *.
  destruct w; cbn [ucons_word]; [assumption|].
  constructor; [split; [discriminate | assumption] | assumption].
Qed.

(** Two scopes separated by an em space (U+2003) are two scopes; a
    Cyrillic letter (U+0420) in front of a scope is part of it. *)
Example usplit_em_space :
  usplit (of_latin1 "read:messages" ++ 8195%N :: of_latin1 "write:messages") =
  [of_latin1 "read:messages"; of_latin1 "write:messages"] /\
  usplit (1056%N :: of_latin1 "read:messages") =
  [1056%N :: of_latin1 "read:messages"].
Proof. split; reflexivity. Qed.

Example requires_scope_em_space :
  (run (sample_handler tt (Ok sample_header) (Ok ∅)
          (Ok {[ "scope" := JStr (of_latin1 "read:messages" ++
                                  8195%N :: of_latin1 "write:messages") ]}))
       (requires_scope (Some "Bearer abc.def.ghi") "write:messages")).2 = Ok true /\
  (run (sample_handler tt (Ok sample_header) (Ok ∅)
          (Ok {[ "scope" := JStr (1056%N :: of_latin1 "read:messages") ]}))
       (requires_scope (Some "Bearer abc.def.ghi") "read:messages")).2 = Ok false.
Proof. split; by_vm. Qed.

End TextFacts.

(* ===================================================================== *)
(** ** A token header that cannot be decoded                              *)
(* ===================================================================== *)

Section HeaderDecodeFailure.

Context {Response : Type}.
Variables AUTH0_DOMAIN API_AUDIENCE : string.
Implicit Types (h : handler Response) (auth : option string).

(** C8.  The clause of the claim on the header of the token fails on the
    code: [jwt.get_unverified_header] is called before the [try]
    statement, so when it cannot decode the header of the token its
    exception leaves the decorator as it is, and the outcome is not the
    invalid_header error "Unable to parse authentication token." that
    the [except Exception] clause gives to the failures of [jwt.decode]. *)
Theorem header_decode_failure_unmapped h auth token (body : string)
        (jwks : gmap string (list (gmap string string))) e :
  get_token_auth_header auth = Ok token ->
  h (urlopen_read (jwks_url AUTH0_DOMAIN)) = Ok body ->
  h (json_loads body) = Ok jwks ->
  h (jwt_get_unverified_header token) = Raise e ->
  is_AuthError e = false ->
  (run h (requires_auth_token AUTH0_DOMAIN API_AUDIENCE auth)).2 = Raise e /\
  (run h (requires_auth_token AUTH0_DOMAIN API_AUDIENCE auth)).2 <>
    Raise (AuthError (error_dict "invalid_header"
                                 "Unable to parse authentication token.") 401).
Proof.
  intros Htok Hurl Hjson Hhdr He.
  assert ((run h (requires_auth_token AUTH0_DOMAIN API_AUDIENCE auth)).2 = Raise e)
    as ->.
  { now rewrite run_decorated, Htok, Hurl, Hjson, Hhdr. }
  split; [reflexivity|]. intros [= ->]. discriminate He.
Qed.

End HeaderDecodeFailure.

(** The token abc has no header python-jose can decode. *)
Lemma header_decode_failure_unmapped_witness :
  (run (sample_handler tt (Raise JWTError) (Ok ∅) (Ok ∅))
       (requires_auth_token "example.auth0.com" "https://api.example.com"
                            (Some "Bearer abc"))).2 = Raise JWTError /\
  (run (sample_handler tt (Raise JWTError) (Ok ∅) (Ok ∅))
       (requires_auth_token "example.auth0.com" "https://api.example.com"
                            (Some "Bearer abc"))).2 <>
    Raise (AuthError (error_dict "invalid_header"
                                 "Unable to parse authentication token.") 401).
Proof.
  refine (header_decode_failure_unmapped "example.auth0.com"
            "https://api.example.com"
            (sample_handler tt (Raise JWTError) (Ok ∅) (Ok ∅))
            (Some "Bearer abc") "abc" "{...}" {[ "keys" := [sample_jwk] ]}
            JWTError _ _ _ _ _); by_vm.
Defined.
